(** * trace_fitter.py: pulse-shape fitting of TES and FET traces

    A shallow embedding of [trace_fitter.py].  Samples and bin times are
    IEEE binary64 numbers, as in numpy's float64 arrays, so they are
    primitive floats here; indices are natural numbers.  Python exceptions
    are values of [PyExc] carried by an error monad.  The module's global
    namespace is a finite map from names to objects, because several
    functions read names that are resolved there at call time.

    Console output ([print], [printVerbose]) is not part of the model; the
    expressions such a call evaluates for its message are, since they can
    raise. *)

From Stdlib Require Import Floats ZArith Reals Lra.
From stdpp Require Import gmap strings list.
Set Warnings "-inexact-float".

(** ** Exceptions and the error monad *)

Inductive PyExc :=
| NameError (name : string)
| IndexError
| ValueError
| TypeError
| KeyError (key : string)
| SystemExit (code : Z)
| ExternalError (what : string).

(** The class name of an exception, as Python reports it. *)
Definition exc_name (e : PyExc) : string :=
  match e with
  | NameError _ => "NameError"
  | IndexError => "IndexError"
  | ValueError => "ValueError"
  | TypeError => "TypeError"
  | KeyError _ => "KeyError"
  | SystemExit _ => "SystemExit"
  | ExternalError _ => "Exception"
  end.

Inductive result (A : Type) :=
| Ok (a : A)
| Raise (e : PyExc).
Arguments Ok {A} a.
Arguments Raise {A} e.

#[global] Instance result_ret : MRet result := λ A a, Ok a.
#[global] Instance result_bind : MBind result := λ A B f m,
  match m with
  | Ok a => f a
  | Raise e => Raise e
  end.

Definition is_ok {A} (r : result A) : bool :=
  match r with Ok _ => true | Raise _ => false end.

(** ** Numbers *)

Definition np_e : float := 2.718281828459045%float.
Definition np_inf : float := infinity.

(** Conversion of a (numpy) integer to float64, done when an integer lands
    in a parameter vector. *)
Definition float_of_Z (z : Z) : float :=
  if (z <? 0)%Z then (- PrimFloat.of_uint63 (Uint63.of_Z (- z)))%float
  else PrimFloat.of_uint63 (Uint63.of_Z z).

(** ** Sequences: indexing, slicing, reductions, masks *)

(** [xs[i]] for a non-negative index. *)
Definition getitem (xs : list float) (i : nat) : result float :=
  match xs !! i with
  | Some x => Ok x
  | None => Raise IndexError
  end.

(** [xs[s:e]] for non-negative bounds; slices clip, they never raise. *)
Definition slice (xs : list float) (s e : nat) : list float :=
  take (e - s) (drop s xs).

(** [ndarray.max()]: the reduction keeps the accumulator when it is NaN or
    when the next sample does not exceed it.  Among samples that compare
    equal (zeros of either sign) this scalar loop returns the first; numpy's
    vectorised loops may return another of them.  No comparison tells these
    apart. *)
Definition np_max_step (acc x : float) : float :=
  if PrimFloat.is_nan acc || (x <=? acc)%float then acc else x.

Definition np_max (xs : list float) : result float :=
  match xs with
  | [] => Raise ValueError
  | x :: r => Ok (fold_left np_max_step r x)
  end.

(** [ndarray.min()], likewise; the same remark on equal samples applies. *)
Definition np_min_step (acc x : float) : float :=
  if PrimFloat.is_nan acc || (acc <=? x)%float then acc else x.

Definition np_min (xs : list float) : result float :=
  match xs with
  | [] => Raise ValueError
  | x :: r => Ok (fold_left np_min_step r x)
  end.

(** [ndarray.argmax()]: first position of the maximum, or of the first
    NaN.  [mp] is the running maximum, [best] its position, [i] the
    position of the head of [xs]. *)
Fixpoint argmax_scan (mp : float) (best i : nat) (xs : list float) : nat :=
  match xs with
  | [] => best
  | x :: r =>
      if PrimFloat.is_nan mp then best
      else if (x <=? mp)%float then argmax_scan mp best (S i) r
      else argmax_scan x i (S i) r
  end.

Definition np_argmax (xs : list float) : result nat :=
  match xs with
  | [] => Raise ValueError
  | x :: r => Ok (argmax_scan x 0 1 r)
  end.

Fixpoint argmin_scan (mp : float) (best i : nat) (xs : list float) : nat :=
  match xs with
  | [] => best
  | x :: r =>
      if PrimFloat.is_nan mp then best
      else if (mp <=? x)%float then argmin_scan mp best (S i) r
      else argmin_scan x i (S i) r
  end.

Definition np_argmin (xs : list float) : result nat :=
  match xs with
  | [] => Raise ValueError
  | x :: r => Ok (argmin_scan x 0 1 r)
  end.

(** The builtin [max] over a sequence: replace the current item only by a
    strictly greater one. *)
Definition py_max_step (cur x : float) : float :=
  if (cur <? x)%float then x else cur.

Definition py_max (xs : list float) : result float :=
  match xs with
  | [] => Raise ValueError
  | x :: r => Ok (fold_left py_max_step r x)
  end.

(** The builtin two-argument [min(a, b)]. *)
Definition py_min2 (a b : float) : float :=
  if (b <? a)%float then b else a.

(** [list.index(v)]: first position whose item equals [v]. *)
Fixpoint index_from (i : nat) (v : float) (xs : list float) : option nat :=
  match xs with
  | [] => None
  | x :: r => if (x =? v)%float then Some i else index_from (S i) v r
  end.

Definition list_index (xs : list float) (v : float) : result nat :=
  match index_from 0 v xs with
  | Some i => Ok i
  | None => Raise ValueError
  end.

(** [np.nonzero(mask)[0]]: the positions where the mask holds, ascending. *)
Fixpoint nonzero_from (i : nat) (mask : list bool) : list nat :=
  match mask with
  | [] => []
  | b :: r => if b then i :: nonzero_from (S i) r else nonzero_from (S i) r
  end.

Definition np_nonzero (mask : list bool) : list nat := nonzero_from 0 mask.

(** [idx[0]] and [idx[-1]] on an index array: both raise on an empty one. *)
Definition first_of (idx : list nat) : result nat :=
  match idx with
  | [] => Raise IndexError
  | i :: _ => Ok i
  end.

Definition last_of (idx : list nat) : result nat :=
  match last idx with
  | Some i => Ok i
  | None => Raise IndexError
  end.

(** Element-wise comparisons [xs <= t] and [xs >= t]. *)
Definition le_mask (xs : list float) (t : float) : list bool :=
  (λ x, (x <=? t)%float) <$> xs.

Definition ge_mask (xs : list float) (t : float) : list bool :=
  (λ x, (t <=? x)%float) <$> xs.

(** ** The module namespace *)

(** Objects a module-level name can be bound to. *)
Inductive pyobj :=
| PyNone
| PyBool (b : bool)
| PyStr (s : string)
| PyFloat (x : float)
| PySeq (xs : list float)
| PyFunc (name : string)
| PyModule (name : string).

(** The names bound once the module body has run: its imports, its two
    plain globals [verbose] and [sensorType], the environment string and one
    function object per [def].  [env] is the value of
    [os.environ['CDMS_SUPERSIM']]. *)
Definition module_init (env : string) : gmap string pyobj :=
  list_to_map
    [ ("usage", PyFunc "usage"); ("traces_rdf", PyModule "traces_rdf");
      ("np", PyModule "numpy"); ("plt", PyModule "matplotlib.pyplot");
      ("curve_fit", PyFunc "curve_fit"); ("os", PyModule "os");
      ("sys", PyModule "sys"); ("CDMS_SUPERSIM", PyStr env);
      ("verbose", PyBool false); ("printVerbose", PyFunc "printVerbose");
      ("setVerbose", PyFunc "setVerbose"); ("sensorType", PyNone);
      ("traceFit", PyFunc "traceFit"); ("traceFit_TES", PyFunc "traceFit_TES");
      ("traceFit_FET", PyFunc "traceFit_FET"); ("TESshape", PyFunc "TESshape");
      ("FETshape", PyFunc "FETshape"); ("guessTES", PyFunc "guessTES");
      ("guessFET", PyFunc "guessFET"); ("guessRange", PyFunc "guessRange");
      ("fittingRange", PyFunc "fittingRange");
      ("trace_fitting", PyFunc "trace_fitting");
      ("trace_plots", PyFunc "trace_plots");
      ("trace_overlay", PyFunc "trace_overlay"); ("main", PyFunc "main");
      ("getargs", PyFunc "getargs") ].

(** Reading a global name that no enclosing function binds.  None of the
    names looked up this way is a builtin, so a miss is a [NameError]. *)
Definition load_name (g : gmap string pyobj) (name : string) : result pyobj :=
  match g !! name with
  | Some v => Ok v
  | None => Raise (NameError name)
  end.

(** [setVerbose(vb)] rebinds the global [verbose]. *)
Definition setVerbose (vb : bool) (g : gmap string pyobj) : gmap string pyobj :=
  <["verbose" := PyBool vb]> g.

(** The global states the program can be in: the two [global] statements
    of the module are its only writes to the namespace. *)
Inductive reachable : gmap string pyobj → Prop :=
| reach_init env : reachable (module_init env)
| reach_verbose g vb : reachable g → reachable (setVerbose vb g)
| reach_sensor g s : reachable g → reachable (<["sensorType" := PyStr s]> g).

(** ** Idealized pulse shapes *)

(** The arithmetic the two shape functions use; numpy applies them to
    float64 scalars and arrays alike, and the analytic statements about
    them are over the reals. *)
Class PyNum (T : Type) := {
  nsub : T → T → T;
  nmul : T → T → T;
  ndiv : T → T → T;
  nneg : T → T;
  nexp : T → T
}.

Definition TESshape `{PyNum T} (x a t_r t_f offset : T) : T :=
  nmul a (nsub (nexp (ndiv (nneg (nsub x offset)) t_f))
               (nexp (ndiv (nneg (nsub x offset)) t_r))).

Definition FETshape `{PyNum T} (x a invTd invTr offset : T) : T :=
  nmul a (nsub (nmul (nexp (nmul (nneg (nsub x offset)) invTd)) invTd)
               (nmul (nexp (nmul (nneg (nsub x offset)) invTr)) invTr)).

#[global] Instance real_num : PyNum R := {|
  nsub := Rminus; nmul := Rmult; ndiv := Rdiv; nneg := Ropp; nexp := exp
|}.

Definition float_num (np_exp : float → float) : PyNum float := {|
  nsub := PrimFloat.sub; nmul := PrimFloat.mul; ndiv := PrimFloat.div;
  nneg := PrimFloat.opp; nexp := np_exp
|}.

(** ** Bounds and solver calls *)

(** What [curve_fit] accepts as [bounds]: a pair of scalars, applied to
    every parameter, or a pair of arrays. *)
Inductive Bounds :=
| ScalarBounds (lo hi : float)
| ArrayBounds (lo hi : list float).

Definition unconstrained : Bounds := ScalarBounds (- np_inf)%float np_inf.

(** The interval [bounds] gives parameter [i]. *)
Definition bounds_at (b : Bounds) (i : nat) : option (float * float) :=
  match b with
  | ScalarBounds lo hi => Some (lo, hi)
  | ArrayBounds lo hi =>
      match lo !! i, hi !! i with
      | Some l, Some h => Some (l, h)
      | _, _ => None
      end
  end.

Definition params : Type := float * float * float * float.

(** Calls worth observing: entry into [trace_fitting] with its shape and
    [dobounds] arguments, and each call of the solver with its arguments. *)
Inductive event :=
| EvTraceFitting (pulseShape : pyobj) (dobounds : bool)
| EvCurveFit (f : pyobj) (xdata ydata : list float)
             (p0 : option params) (bounds : Bounds).

(** A computation together with the calls it made, in order; an exception
    keeps the calls made before it. *)
Record Traced (A : Type) := mkTraced {
  calls : list event;
  outcome : result A
}.
Arguments mkTraced {A} calls outcome.
Arguments calls {A} t.
Arguments outcome {A} t.

#[global] Instance traced_ret : MRet Traced := λ A a, mkTraced [] (Ok a).
#[global] Instance traced_bind : MBind Traced := λ A B f m,
  match outcome m with
  | Ok a => mkTraced (calls m ++ calls (f a)) (outcome (f a))
  | Raise e => mkTraced (calls m) (Raise e)
  end.

Definition tell (e : event) : Traced unit := mkTraced [e] (Ok tt).
Definition lift {A} (r : result A) : Traced A := mkTraced [] r.

(** ** Collaborators outside the module *)

Record Externals := {
  np_exp : float → float;
  np_log : float → float;
  curve_fit : pyobj → list float → list float → option params → Bounds →
              result (list float);
  getTES : string → Z → Z → result (list float * list float * float * float);
  getFET : string → Z → Z → result (list float * list float * float);
  getTemplate : string → Z → string → result (option (list float))
}.

(** ** Threshold searches

    The idiom [np.nonzero(cond)[0][k]] with [k] either [0] or [-1]: the
    first or last position of a slice meeting a threshold.  The position is
    relative to the slice searched. *)

Definition last_le (xs : list float) (t : float) : result nat :=
  last_of (np_nonzero (le_mask xs t)).

Definition first_le (xs : list float) (t : float) : result nat :=
  first_of (np_nonzero (le_mask xs t)).

Definition first_ge (xs : list float) (t : float) : result nat :=
  first_of (np_nonzero (ge_mask xs t)).

Definition last_ge (xs : list float) (t : float) : result nat :=
  last_of (np_nonzero (ge_mask xs t)).

Section Fitter.
Variable ext : Externals.

Local Open Scope float_scope.

(** Calling the object a name is bound to with the five arguments of a
    shape function.  Only the two shape functions are modelled as
    callees; any other object is reported as a [TypeError]. *)
Definition call_shape (f : pyobj) (x a p1 p2 offset : float) : result float :=
  match f with
  | PyFunc name =>
      if String.eqb name "TESshape"
      then Ok (TESshape (H := float_num (np_exp ext)) x a p1 p2 offset)
      else if String.eqb name "FETshape"
      then Ok (FETshape (H := float_num (np_exp ext)) x a p1 p2 offset)
      else Raise TypeError
  | _ => Raise TypeError
  end.

(** *** Initial guesses *)

Definition guessTES (g : gmap string pyobj) (bins trace : list float)
  : result params :=
  peak ← np_max trace;
  ipeak ← np_argmax trace;
  _ ← getitem bins ipeak;
  (* Rise time: two e-foldings on the rising side *)
  rlo ← last_le (take ipeak trace) (0.1 * peak);
  rhi ← last_le (take ipeak trace) (0.2 * peak * np_e);
  b_rhi ← getitem bins rhi;
  b_rlo ← getitem bins rlo;
  let riseGuess := b_rhi - b_rlo in
  (* Fall time: two e-foldings on the falling side *)
  flo ← first_le (drop ipeak trace) (0.8 * peak);
  fhi ← first_le (drop ipeak trace) (0.4 * peak / np_e);
  b_fhi ← getitem bins fhi;
  b_flo ← getitem bins flo;
  let fallGuess := (b_fhi - b_flo) / 2 in
  let tpeak := riseGuess * np_log ext ((fallGuess + riseGuess) / riseGuess) in
  b_peak ← getitem bins ipeak;
  let offsetGuess := b_peak - tpeak in
  (* Scale factor: the name pulseShape is read from the module namespace *)
  shape ← load_name g "pulseShape";
  pmax ← call_shape shape tpeak 1 riseGuess fallGuess 0;
  let scaleGuess := peak / pmax in
  Ok (scaleGuess, riseGuess, fallGuess, offsetGuess).

(** Decay rate of the FET guess (the two lines under "Decay time"). *)
Definition decay_guess (bins trace : list float) (peak : float) (ipeak : nat)
  : result float :=
  dhi ← last_ge (drop ipeak trace) (peak / (2 * np_e));
  b_dhi ← getitem bins dhi;
  b_0 ← getitem bins 0;
  Ok (2 / (b_dhi - b_0)).

(** Recovery rate before the physicality test (the body of
    [if tmin < 0] up to the assignment of [recoveryGuess]). *)
Definition recovery_raw (bins trace : list float) (tmin : float) (imin : nat)
  : result float :=
  tlast ← np_max (drop imin trace);
  rlo ← first_ge (drop imin trace) (tmin * 0.8);
  rhi ← first_ge (drop imin trace) (py_min2 (tmin * 0.4 / np_e) tlast);
  b_rhi ← getitem bins rhi;
  b_rlo ← getitem bins rlo;
  Ok (2 / (b_rhi - b_rlo)).

Definition guessFET (g : gmap string pyobj) (bins trace : list float)
  : result params :=
  peak ← np_max trace;
  ipeak ← np_argmax trace;
  _ ← getitem bins ipeak;
  (* Peak should be at the first bin after the trigger *)
  i0 ← first_ge bins 0;
  let istart := (i0 + 1)%nat in
  let offsetGuess := (Z.of_nat ipeak - Z.of_nat istart)%Z in
  decayGuess ← decay_guess bins trace peak ipeak;
  tmin ← np_min trace;
  imin ← np_argmin trace;
  _ ← getitem bins imin;
  recoveryGuess ←
    (if tmin <? 0
     then raw ← recovery_raw bins trace tmin imin;
          Ok (if raw <? 0.1 * decayGuess then 0 else raw)
     else Ok 0);
  let scaleGuess := peak / (decayGuess - recoveryGuess) in
  Ok (scaleGuess, decayGuess, recoveryGuess, float_of_Z offsetGuess).

(** *** Bounds from the guess *)

(** The loop of [guessRange]: a parameter whose guess is zero gets
    infinite bounds, written in place into both arrays. *)
Definition unbound_zero (guess : list float) (b : list float * list float)
    (i : nat) : list float * list float :=
  match guess !! i with
  | Some gi => if gi =? 0
               then (<[i := - np_inf]> (fst b), <[i := np_inf]> (snd b))
               else b
  | None => b
  end.

Definition guessRange {F : Type} (g : gmap string pyobj) (guessFunc : option F)
  : result Bounds :=
  match guessFunc with
  | None => Ok unconstrained
  | Some _ =>
      v ← load_name g "guess";
      match v with
      | PySeq guess =>
          let lower := (λ x, 0.1 * x) <$> guess in
          let upper := (λ x, 5 * x) <$> guess in
          let b := foldl (unbound_zero guess) (lower, upper)
                         (seq 0 (length guess)) in
          Ok (ArrayBounds (fst b) (snd b))
      | _ => Raise TypeError
      end
  end.

(** *** Fit window *)

Definition fittingRange (g : gmap string pyobj) (trace : list float)
    (cut : float) : result (nat * nat) :=
  peak ← py_max trace;
  ipeak ← list_index trace peak;
  sensorType ← load_name g "sensorType";
  match sensorType with
  | PyStr s =>
      if String.eqb s "TES" then
        ilo ← last_le (take ipeak trace) (cut * peak);
        j ← first_le (drop ipeak trace) (cut * peak);
        Ok (ilo, (ipeak + j)%nat)
      else if String.eqb s "FET" then
        imax ← np_argmax trace;
        let ilo := (imax + 1)%nat in
        Ok (ilo, (ilo + 2000)%nat)
      else Ok (0%nat, length trace)
  | _ => Ok (0%nat, length trace)
  end.

(** *** General fitting function *)

Definition GuessFn : Type :=
  gmap string pyobj → list float → list float → result params.

(** [a, t1, t2, offset = params] *)
Definition unpack4 (ps : list float) : result params :=
  match ps with
  | [a; t1; t2; offset] => Ok (a, t1, t2, offset)
  | _ => Raise ValueError
  end.

(** [guessFunc(bins, trace) if guessFunc else None] *)
Definition initial_guess (g : gmap string pyobj) (bins trace : list float)
    (guessFunc : option GuessFn) : result (option params) :=
  match guessFunc with
  | Some f => p ← f g bins trace; Ok (Some p)
  | None => Ok None
  end.

(** [guessRange(guessFunc) if dobounds else (-np.inf, np.inf)] *)
Definition fit_bounds (g : gmap string pyobj) (guessFunc : option GuessFn)
    (dobounds : bool) : result Bounds :=
  if dobounds then guessRange g guessFunc else Ok unconstrained.

Definition trace_fitting (g : gmap string pyobj) (bins trace : list float)
    (pulseShape : pyobj) (guessFunc : option GuessFn) (dobounds : bool)
  : Traced params :=
  _ ← tell (EvTraceFitting pulseShape dobounds);
  '(start, stop) ← lift (fittingRange g trace 0.2);
  guess ← lift (initial_guess g bins trace guessFunc);
  bounds ← lift (fit_bounds g guessFunc dobounds);
  _ ← tell (EvCurveFit pulseShape (slice bins start stop)
                        (slice trace start stop) guess bounds);
  fitted ← lift (curve_fit ext pulseShape (slice bins start stop)
                           (slice trace start stop) guess bounds);
  lift (unpack4 fitted).

(** *** Overlay plots

    Drawing itself is outside the model; what remains is what the two
    plotting functions compute before they draw, which can raise. *)

Definition trace_overlay (g : gmap string pyobj) (detname sensor : string)
    (bins trace fitshape : list float) (template : option (list float))
  : result unit :=
  _ ← np_min bins;
  _ ← np_max bins;
  _ ← fittingRange g trace 0.2;
  (* units[sensor], then xlim[sensor] and yscale[sensor]: keys TES and FET *)
  if String.eqb sensor "TES" || String.eqb sensor "FET" then Ok tt
  else Raise (KeyError sensor).

Definition trace_plots (g : gmap string pyobj) (detname sensor : string)
    (channel : Z) (bins trace fitshape : list float) : result unit :=
  let titleName := if String.eqb detname "" then "Trace"%string else detname in
  template ← getTemplate ext detname channel sensor;
  trace_overlay g titleName sensor bins trace fitshape template.

(** *** Primary functions *)

Definition traceFit_TES (g : gmap string pyobj) (file detname : string)
    (event channel : Z) (doplot : bool) : Traced unit :=
  '(bins, trace, I0, PhononE) ← lift (getTES ext file event channel);
  _ ← lift (py_max trace);
  '(a, tR, tF, offset) ←
    trace_fitting g bins trace (PyFunc "TESshape") (Some guessTES) true;
  _ ← lift (if doplot
            then trace_plots g detname "TES" channel bins trace
                   ((λ x, TESshape (H := float_num (np_exp ext))
                              x a tR tF offset) <$> bins)
            else Ok tt);
  (* the report reads the name titleName, which this function never binds *)
  _ ← lift (load_name g "titleName");
  _ ← lift (py_max trace);
  mret tt.

Definition traceFit_FET (g : gmap string pyobj) (file detname : string)
    (event channel : Z) (doplot : bool) : Traced unit :=
  '(bins, trace, ChargeQ) ← lift (getFET ext file event channel);
  '(a, invTd, invTr, offset) ←
    trace_fitting g bins trace (PyFunc "FETshape") (Some guessFET) false;
  _ ← lift (if doplot
            then trace_plots g detname "FET" channel bins trace
                   ((λ x, FETshape (H := float_num (np_exp ext))
                              x a invTd invTr offset) <$> bins)
            else Ok tt);
  mret tt.

(** [traceFit] records the sensor in the global [sensorType] and then
    dispatches on it; the returned namespace is the one left behind. *)
Definition traceFit (g : gmap string pyobj) (file detname sensor : string)
    (event channel : Z) (doplot : bool) : gmap string pyobj * Traced unit :=
  let g' := <["sensorType" := PyStr sensor]> g in
  (g',
   if String.eqb sensor "TES"
   then traceFit_TES g' file detname event channel doplot
   else if String.eqb sensor "FET"
   then traceFit_FET g' file detname event channel doplot
   else lift (Raise (SystemExit 2))).

End Fitter.

Arguments guessRange {F} g guessFunc.

(** ** Sample inputs *)

Definition tes_globals : gmap string pyobj :=
  <["sensorType" := PyStr "TES"]> (module_init "").

Definition fet_globals : gmap string pyobj :=
  <["sensorType" := PyStr "FET"]> (module_init "").

(** Unit-spaced bin axis [0, 1, ..., n-1]. *)
Definition unit_bins (n : nat) : list float :=
  (λ i, float_of_Z (Z.of_nat i)) <$> seq 0 n.

(** A clean single peak at index 50 over a zero baseline. *)
Definition clean_peak : list float :=
  (replicate 48 0 ++ [1; 5; 10; 5; 1] ++ replicate 48 0)%float.

(** A short FET pulse peaking at index 1. *)
Definition fet_bins : list float := [0; 1; 2; 3; 4; 5]%float.
Definition fet_pulse : list float := [0; 10; 5; 2; 0; 0]%float.

(** A FET pulse with a long shallow undershoot: decay rate 1.0, raw
    recovery rate 0.05. *)
Definition undershoot : list float :=
  ([10; 5; 2; -1; -2; -1.5] ++ replicate 39 (-1) ++ [-0.1])%float.

(** A stand-in solver that returns its seed. *)
Definition echo_externals : Externals := {|
  np_exp := λ x, x;
  np_log := λ x, x;
  curve_fit := λ _ _ _ p0 _,
    match p0 with
    | Some (a, t1, t2, offset) => Ok [a; t1; t2; offset]
    | None => Raise (ExternalError "no seed")
    end;
  getTES := λ _ _ _, Ok (unit_bins 101, clean_peak, 1, 1)%float;
  getFET := λ _ _ _, Ok (fet_bins, fet_pulse, 1%float);
  getTemplate := λ _ _ _, Ok None
|}.

(** ** Command line

    [getopt.getopt] and the builtin [int] belong to Python, not to the
    module: they are collaborators.  [getopt] is [None] where Python raises
    [GetoptError], and [py_int] is [None] where [int] raises [ValueError]. *)

Record CommandLine := {
  getopt : list string → string → option (list (string * string) * list string);
  py_int : string → option Z
}.

(** The dictionary [settings] of [getargs]: its six keys are fixed by the
    literal that creates it, and are the keyword arguments of [traceFit]. *)
Record Settings := mkSettings {
  opt_file : string;
  opt_detname : string;
  opt_event : Z;
  opt_channel : Z;
  opt_sensor : string;
  opt_doplot : bool
}.

(** The loop [for o,a in opts] of [getargs].  The namespace is threaded
    because the branch for [-v] reads the name [true] and calls
    [setVerbose]; the namespace comes back also when the loop raises. *)
Fixpoint getargs_loop (cl : CommandLine) (opts : list (string * string))
    (g : gmap string pyobj) (s : Settings)
  : gmap string pyobj * result Settings :=
  match opts with
  | [] => (g, Ok s)
  | (o, a) :: rest =>
      if String.eqb o "-c" then
        match py_int cl a with
        | Some n =>
            getargs_loop cl rest g
              (mkSettings (opt_file s) (opt_detname s) (opt_event s) n
                          (opt_sensor s) (opt_doplot s))
        | None => (g, Raise ValueError)
        end
      else if String.eqb o "-d" then
        getargs_loop cl rest g
          (mkSettings (opt_file s) a (opt_event s) (opt_channel s)
                      (opt_sensor s) (opt_doplot s))
      else if String.eqb o "-e" then
        match py_int cl a with
        | Some n =>
            getargs_loop cl rest g
              (mkSettings (opt_file s) (opt_detname s) n (opt_channel s)
                          (opt_sensor s) (opt_doplot s))
        | None => (g, Raise ValueError)
        end
      else if String.eqb o "-h" then (g, Raise (SystemExit 0))
      else if String.eqb o "-p" then
        getargs_loop cl rest g
          (mkSettings (opt_file s) (opt_detname s) (opt_event s)
                      (opt_channel s) (opt_sensor s) true)
      else if String.eqb o "-s" then
        getargs_loop cl rest g
          (mkSettings (opt_file s) (opt_detname s) (opt_event s)
                      (opt_channel s) a (opt_doplot s))
      else if String.eqb o "-v" then
        match load_name g "true" with
        | Ok vb => getargs_loop cl rest (<["verbose" := vb]> g) s
        | Raise e => (g, Raise e)
        end
      else getargs_loop cl rest g s
  end.

(** [getargs()], with [sys.argv] as its argument. *)
Definition getargs (cl : CommandLine) (g : gmap string pyobj)
    (argv : list string) : gmap string pyobj * result Settings :=
  match getopt cl (drop 1 argv) "c:d:e:hpv" with
  | None => (g, Raise (SystemExit 2))
  | Some (opts, args) =>
      match args with
      | [] => (g, Raise (SystemExit 2))
      | file :: _ =>
          getargs_loop cl opts g (mkSettings file "" 0 0 "TES" false)
      end
  end.

(** [main()]: [traceFit] called with the settings of [getargs] as its
    keyword arguments. *)
Definition main (ext : Externals) (cl : CommandLine) (g : gmap string pyobj)
    (argv : list string) : gmap string pyobj * Traced unit :=
  match getargs cl g argv with
  | (g', Ok s) =>
      traceFit ext g' (opt_file s) (opt_detname s) (opt_sensor s)
               (opt_event s) (opt_channel s) (opt_doplot s)
  | (g', Raise e) => (g', lift (Raise e))
  end.

(** The argument of the last occurrence of option [o], if any. *)
Definition last_arg (o : string) (opts : list (string * string))
  : option string :=
  last (snd <$> filter (λ oa, fst oa = o) opts).

(** An option [getargs] gets past: neither [-h] nor [-v], and with an
    integer argument when it is [-c] or [-e]. *)
Definition option_ok (cl : CommandLine) (oa : string * string) : Prop :=
  fst oa ≠ "-h" ∧ fst oa ≠ "-v" ∧
  (fst oa = "-c" ∨ fst oa = "-e" → is_Some (py_int cl (snd oa))).

(** What [getopt] promises for the option string of [getargs]: every
    option it reports is one of the letters of that string. *)
Definition getopt_contract (cl : CommandLine) : Prop :=
  ∀ args opts rest o a,
    getopt cl args "c:d:e:hpv" = Some (opts, rest) → (o, a) ∈ opts →
    o ∈ ["-c"; "-d"; "-e"; "-h"; "-p"; "-v"].

(** A command line reader that knows [-p] as first word and decimal
    digits 0 and 7. *)
Definition tiny_cli : CommandLine := {|
  getopt := λ args _,
    match args with
    | "-p" :: rest => Some ([("-p", "")], rest)
    | _ => Some ([], args)
    end;
  py_int := λ a, if String.eqb a "7" then Some 7%Z
                 else if String.eqb a "0" then Some 0%Z else None
|}.

(** No sample is NaN. *)
Definition nan_free (xs : list float) : Prop :=
  Forall (λ x, PrimFloat.is_nan x = false) xs.

(** ** Predicates and reference definitions used in the statements *)

(** A sample is zero, of either sign. *)
Definition is_zero (x : float) : Prop := x = 0%float ∨ x = (-0)%float.

(** A trace that stays on a zero baseline. *)
Definition flat_zero (trace : list float) : Prop := Forall is_zero trace.

(** The exclusion the window is said to have: no sample below [level] has
    its index in [s, e). *)
Definition excludes_below (trace : list float) (level : float) (s e : nat)
  : Prop :=
  ∀ i x, trace !! i = Some x → (x <? level)%float = true → ¬ (s ≤ i < e).

(** The decay rate as the specification words it: the time of the last
    sample at or above peak/(2e) is read at that sample's index in the full
    trace. *)
Definition decay_guess_spec (bins trace : list float) (peak : float)
    (ipeak : nat) : result float :=
  dhi ← last_ge (drop ipeak trace) (peak / (2 * np_e))%float;
  t ← getitem bins (ipeak + dhi);
  b_0 ← getitem bins 0;
  Ok (2 / (t - b_0))%float.

(** * Properties *)

(** ** The error monad and the call trace *)

Lemma bind_Ok {A B} (m : result A) (f : A → result B) (b : B) :
  m ≫= f = Ok b → ∃ a, m = Ok a ∧ f a = Ok b.
Proof. destruct m as [a|e]; [eauto | discriminate]. Qed.

Lemma bind_Ok_l {A B} (a : A) (f : A → result B) : Ok a ≫= f = f a.
Proof. reflexivity. Qed.

Lemma bind_Raise_l {A B} (e : PyExc) (f : A → result B) :
  Raise e ≫= f = Raise e.
Proof. reflexivity. Qed.

Lemma is_ok_true {A} (r : result A) : is_ok r = true → ∃ a, r = Ok a.
Proof. destruct r; [eauto | discriminate]. Qed.

Lemma calls_bind {A B} (m : Traced A) (f : A → Traced B) :
  calls (m ≫= f) =
  calls m ++ match outcome m with Ok a => calls (f a) | Raise _ => [] end.
Proof.
  unfold mbind, traced_bind. destruct (outcome m); simpl; [done|].
  by rewrite app_nil_r.
Qed.

Lemma outcome_bind {A B} (m : Traced A) (f : A → Traced B) :
  outcome (m ≫= f) =
  match outcome m with Ok a => outcome (f a) | Raise e => Raise e end.
Proof. unfold mbind, traced_bind. by destruct (outcome m). Qed.

Lemma elem_of_calls_bind {A B} (m : Traced A) (f : A → Traced B)
    (ev : event) :
  ev ∈ calls (m ≫= f) ↔
  ev ∈ calls m ∨ ∃ a, outcome m = Ok a ∧ ev ∈ calls (f a).
Proof.
  rewrite calls_bind, elem_of_app. split.
  - intros [?|H]; [by left|]. destruct (outcome m) as [a|]; [eauto|].
    by apply elem_of_nil in H.
  - intros [?|(a & -> & ?)]; [by left | by right].
Qed.

Lemma lift_bind {A B} (r : result A) (f : A → Traced B) :
  lift r ≫= f
  = match r with Ok a => f a | Raise e => mkTraced [] (Raise e) end.
Proof.
  destruct r; unfold mbind, traced_bind; simpl; [|done]. by destruct (f a).
Qed.

(** ** The namespace never binds the names read as data *)

Lemma module_init_unbound env name :
  name ∈ ["pulseShape"; "guess"; "titleName"] → module_init env !! name = None.
Proof.
  rewrite !elem_of_cons, elem_of_nil.
  intros [->|[->|[->|[]]]]; reflexivity.
Qed.

Lemma reachable_unbound g name :
  reachable g → name ∈ ["pulseShape"; "guess"; "titleName"] → g !! name = None.
Proof.
  intros Hr Hn. induction Hr as [env|g vb _ IH|g s _ IH].
  - by apply module_init_unbound.
  - unfold setVerbose. rewrite lookup_insert_ne; [done|].
    intros <-. revert Hn. rewrite !elem_of_cons, elem_of_nil.
    intros [?|[?|[?|[]]]]; discriminate.
  - rewrite lookup_insert_ne; [done|].
    intros <-. revert Hn. rewrite !elem_of_cons, elem_of_nil.
    intros [?|[?|[?|[]]]]; discriminate.
Qed.

Lemma reachable_sensorType g :
  reachable g → g !! "sensorType" = Some PyNone ∨ ∃ s, g !! "sensorType" = Some (PyStr s).
Proof.
  induction 1 as [env|g vb _ IH|g s _ IH].
  - by left.
  - unfold setVerbose. by rewrite lookup_insert_ne.
  - right. exists s. by rewrite lookup_insert_eq.
Qed.

(** ** Threshold searches return what they look for *)

Lemma nonzero_from_nil i mask :
  nonzero_from i mask = [] → ∀ j, mask !! j ≠ Some true.
Proof.
  revert i. induction mask as [|b r IH]; intros i H j; [done|].
  simpl in H. destruct b; [discriminate|].
  destruct j as [|j]; [done|]. simpl. by eapply IH.
Qed.

Lemma first_of_nonzero_from i mask k :
  first_of (nonzero_from i mask) = Ok k →
  ∃ j, k = i + j ∧ mask !! j = Some true ∧
       ∀ j', j' < j → mask !! j' = Some false.
Proof.
  revert i. induction mask as [|b r IH]; intros i; simpl; [discriminate|].
  destruct b; simpl.
  - intros [= <-]. exists 0. repeat split; [lia|]. intros; lia.
  - intros H. destruct (IH _ H) as (j & -> & Hj & Hlt).
    exists (S j). repeat split; [lia|done|].
    intros [|j'] ?; [done|]. simpl. apply Hlt. lia.
Qed.

Lemma last_nonzero_from i mask k :
  last (nonzero_from i mask) = Some k →
  ∃ j, k = i + j ∧ mask !! j = Some true ∧
       ∀ j', j < j' → mask !! j' ≠ Some true.
Proof.
  revert i. induction mask as [|b r IH]; intros i; simpl; [discriminate|].
  destruct b.
  - rewrite last_cons. destruct (last (nonzero_from (S i) r)) as [k'|] eqn:E.
    + intros [= <-]. destruct (IH _ E) as (j & -> & Hj & Hgt).
      exists (S j). repeat split; [lia|done|].
      intros [|j'] ?; [lia|]. simpl. apply Hgt. lia.
    + intros [= <-]. apply last_None in E.
      exists 0. repeat split; [lia|].
      intros [|j'] ?; [lia|]. simpl. by eapply nonzero_from_nil.
  - intros H. destruct (IH _ H) as (j & -> & Hj & Hgt).
    exists (S j). repeat split; [lia|done|].
    intros [|j'] ?; [lia|]. simpl. apply Hgt. lia.
Qed.

Section MaskSearch.
Variable p : float → bool.

Lemma first_of_mask xs k :
  first_of (np_nonzero (p <$> xs)) = Ok k →
  (∃ x, xs !! k = Some x ∧ p x = true) ∧
  (∀ j y, j < k → xs !! j = Some y → p y = false).
Proof.
  intros H. apply first_of_nonzero_from in H as (j & -> & Hj & Hlt).
  simpl. split.
  - apply list_lookup_fmap_Some in Hj as (x & ? & ?). eauto.
  - intros j' y Hj' Hy. specialize (Hlt j' Hj').
    rewrite list_lookup_fmap, Hy in Hlt. by injection Hlt.
Qed.

Lemma last_of_mask xs k :
  last_of (np_nonzero (p <$> xs)) = Ok k →
  (∃ x, xs !! k = Some x ∧ p x = true) ∧
  (∀ j y, k < j → xs !! j = Some y → p y = false).
Proof.
  unfold last_of, np_nonzero.
  destruct (last _) as [k'|] eqn:E; [|discriminate]. intros [= ->].
  apply last_nonzero_from in E as (j & -> & Hj & Hgt). simpl. split.
  - apply list_lookup_fmap_Some in Hj as (x & ? & ?). eauto.
  - intros j' y Hj' Hy. specialize (Hgt j' Hj').
    rewrite list_lookup_fmap, Hy in Hgt. simpl in Hgt.
    destruct (p y); [by destruct Hgt | done].
Qed.

Lemma first_of_mask_raise xs e :
  first_of (np_nonzero (p <$> xs)) = Raise e → e = IndexError.
Proof.
  unfold first_of. destruct (np_nonzero _); [|discriminate]. by intros [= <-].
Qed.

Lemma last_of_mask_raise xs e :
  last_of (np_nonzero (p <$> xs)) = Raise e → e = IndexError.
Proof.
  unfold last_of. destruct (last _); [discriminate|]. by intros [= <-].
Qed.
End MaskSearch.

Lemma found_lt_length (xs : list float) (k : nat) :
  (∃ x, xs !! k = Some x) → k < length xs.
Proof. intros [x Hx]. by eapply lookup_lt_Some. Qed.

Lemma argmax_scan_lt mp best i xs :
  best < i → argmax_scan mp best i xs < i + length xs.
Proof.
  revert mp best i. induction xs as [|x r IH]; intros mp best i Hb; simpl; [lia|].
  destruct (PrimFloat.is_nan mp); [lia|].
  destruct (x <=? mp)%float.
  - specialize (IH mp best (S i)). lia.
  - specialize (IH x i (S i)). lia.
Qed.

Lemma argmin_scan_lt mp best i xs :
  best < i → argmin_scan mp best i xs < i + length xs.
Proof.
  revert mp best i. induction xs as [|x r IH]; intros mp best i Hb; simpl; [lia|].
  destruct (PrimFloat.is_nan mp); [lia|].
  destruct (mp <=? x)%float.
  - specialize (IH mp best (S i)). lia.
  - specialize (IH x i (S i)). lia.
Qed.

Lemma np_argmax_lt xs k : np_argmax xs = Ok k → k < length xs.
Proof.
  destruct xs as [|x r]; [discriminate|]. intros [= <-]. simpl.
  pose proof (argmax_scan_lt x 0 1 r). lia.
Qed.

Lemma np_argmin_lt xs k : np_argmin xs = Ok k → k < length xs.
Proof.
  destruct xs as [|x r]; [discriminate|]. intros [= <-]. simpl.
  pose proof (argmin_scan_lt x 0 1 r). lia.
Qed.

Lemma getitem_lt (xs : list float) (i : nat) :
  i < length xs → ∃ x, getitem xs i = Ok x ∧ xs !! i = Some x.
Proof.
  intros H. apply lookup_lt_is_Some in H as [x Hx].
  exists x. unfold getitem. by rewrite Hx.
Qed.

Lemma getitem_Raise (xs : list float) (i : nat) (e : PyExc) :
  getitem xs i = Raise e → e = IndexError.
Proof. unfold getitem. destruct (xs !! i); [discriminate | by intros [= <-]]. Qed.

Lemma getitem_Ok (xs : list float) (i : nat) (x : float) :
  getitem xs i = Ok x → xs !! i = Some x.
Proof. unfold getitem. destruct (xs !! i); [by intros [= ->] | discriminate]. Qed.

Lemma tes_globals_reachable : reachable tes_globals.
Proof. apply reach_sensor, reach_init. Qed.

Lemma fet_globals_reachable : reachable fet_globals.
Proof. apply reach_sensor, reach_init. Qed.

(** ** Bounds policy *)

Lemma guessRange_no_guess {F} (g : gmap string pyobj) :
  guessRange (F := F) g None = Ok unconstrained.
Proof. reflexivity. Qed.

(** C10: in every namespace the program can be in, [guessRange] called with
    a guess function raises [NameError] for the name [guess]; it returns
    only when called without one, and then with the unconstrained pair
    (-inf, inf).  Bounds computed from a guess vector are never returned. *)
Theorem guessRange_NameError {F} (g : gmap string pyobj) (guessFunc : option F) :
  reachable g →
  (∀ f, guessFunc = Some f → guessRange g guessFunc = Raise (NameError "guess")) ∧
  (∀ b, guessRange g guessFunc = Ok b ↔ guessFunc = None ∧ b = unconstrained).
Proof.
  intros Hr.
  assert (Hg : g !! "guess" = None).
  { apply reachable_unbound; [done|]. set_solver. }
  split.
  - intros f ->. unfold guessRange, load_name. by rewrite Hg.
  - intros b. destruct guessFunc as [f|]; simpl.
    + unfold load_name. rewrite Hg. simpl. split; [discriminate|].
      by intros [? _].
    + split; [by intros [= <-] | by intros [_ ->]].
Qed.

Lemma guessRange_NameError_witness :
  reachable tes_globals ∧
  guessRange tes_globals (Some guessFET) = Raise (NameError "guess").
Proof.
  split; [exact tes_globals_reachable|].
  exact (proj1 (guessRange_NameError tes_globals (Some guessFET)
                  tes_globals_reachable) guessFET eq_refl).
Defined.

(** With a guess function and bounds requested, the fit stops at the name
    [guess] once the window is found. *)
Lemma trace_fitting_bounds_NameError (ext : Externals) (g : gmap string pyobj)
    (bins trace : list float) (shape : pyobj) (f : GuessFn) :
  g !! "guess" = None →
  is_ok (fittingRange g trace 0.2) = true →
  is_ok (f g bins trace) = true →
  outcome (trace_fitting ext g bins trace shape (Some f) true)
  = Raise (NameError "guess").
Proof.
  intros Hg Hw Hf.
  apply is_ok_true in Hw as [[s e] Hw]. apply is_ok_true in Hf as [p Hf].
  unfold trace_fitting. rewrite !outcome_bind.
  cbn [tell lift outcome]. rewrite Hw. cbn [outcome].
  unfold initial_guess. rewrite Hf.
  cbn [mbind result_bind outcome]. unfold fit_bounds, guessRange, load_name.
  by rewrite Hg.
Qed.

(** C1: evaluated in the module's own namespace with a guess function whose
    guess vector is [0, 2, 3, 4], [guessRange] does not return per-parameter
    bounds: it raises [NameError] for [guess]; so does the fit that asked
    for bounds. *)
Theorem guessRange_guess_0234 (env : string) (ext : Externals)
    (bins trace : list float) (shape : pyobj) :
  let f : GuessFn := λ _ _ _, Ok (0, 2, 3, 4)%float in
  guessRange (module_init env) (Some f) = Raise (NameError "guess") ∧
  (is_ok (fittingRange (module_init env) trace 0.2) = true →
   outcome (trace_fitting ext (module_init env) bins trace shape (Some f) true)
   = Raise (NameError "guess")).
Proof.
  intros f.
  assert (Hg : module_init env !! "guess" = None).
  { apply module_init_unbound. set_solver. }
  split.
  - unfold guessRange, load_name. by rewrite Hg.
  - intros H. by apply trace_fitting_bounds_NameError.
Qed.

(** ** A flat zero trace *)

Lemma zero_compare x y :
  is_zero x → is_zero y →
  PrimFloat.is_nan x = false ∧ (y <=? x)%float = true ∧
  (x <? y)%float = false ∧ (x =? y)%float = true.
Proof. by intros [->| ->] [->| ->]. Qed.

Lemma py_max_flat x r :
  is_zero x → flat_zero r → fold_left py_max_step r x = x.
Proof.
  intros Hx Hr. induction Hr as [|y r Hy _ IH]; [done|]. simpl.
  unfold py_max_step at 2.
  destruct (zero_compare x y Hx Hy) as (_ & _ & -> & _). exact IH.
Qed.

Lemma np_max_flat x r :
  is_zero x → flat_zero r → fold_left np_max_step r x = x.
Proof.
  intros Hx Hr. induction Hr as [|y r Hy _ IH]; [done|]. simpl.
  unfold np_max_step at 2.
  destruct (zero_compare x y Hx Hy) as (-> & -> & _). exact IH.
Qed.

Lemma argmax_flat x i r :
  is_zero x → flat_zero r → argmax_scan x 0 i r = 0.
Proof.
  intros Hx Hr. revert i. induction Hr as [|y r Hy _ IH]; intros i; [done|].
  simpl. destruct (zero_compare x y Hx Hy) as (-> & -> & _). apply IH.
Qed.

(** On a flat zero trace the peak is the first sample, so the rising side
    searched by the TES heuristics is empty. *)
Lemma flat_zero_peak trace :
  trace ≠ [] → flat_zero trace →
  ∃ z, py_max trace = Ok z ∧ list_index trace z = Ok 0 ∧
       np_max trace = Ok z ∧ np_argmax trace = Ok 0.
Proof.
  intros Hne Hz. destruct trace as [|x r]; [done|].
  apply Forall_cons in Hz as [Hx Hr]. exists x. simpl.
  rewrite py_max_flat, np_max_flat, argmax_flat by done.
  repeat split. unfold list_index. simpl.
  by destruct (zero_compare x x Hx Hx) as (_ & _ & _ & ->).
Qed.

(** C2: on a non-empty trace that is flat at zero, with the TES sensor
    selected, the window selector, the TES guess and the fit built on them
    all fail with Python's [IndexError], raised by indexing an empty array of
    matches. *)
Theorem flat_zero_IndexError (ext : Externals) (g : gmap string pyobj)
    (bins trace : list float) (cut : float) (shape : pyobj) (dobounds : bool) :
  g !! "sensorType" = Some (PyStr "TES") → trace ≠ [] → flat_zero trace →
  fittingRange g trace cut = Raise IndexError ∧
  guessTES ext g bins trace = Raise IndexError ∧
  outcome (trace_fitting ext g bins trace shape (Some (guessTES ext)) dobounds)
  = Raise IndexError.
Proof.
  intros Hg Hne Hz.
  destruct (flat_zero_peak trace Hne Hz) as (z & Hpy & Hidx & Hnp & Harg).
  assert (Hw : ∀ c, fittingRange g trace c = Raise IndexError).
  { intros c. unfold fittingRange, load_name.
    rewrite Hpy, bind_Ok_l, Hidx, bind_Ok_l, Hg. reflexivity. }
  split; [apply Hw|]. split.
  - unfold guessTES. rewrite Hnp, bind_Ok_l, Harg, bind_Ok_l.
    destruct (getitem bins 0) as [b|e] eqn:E; [reflexivity|].
    by apply getitem_Raise in E as ->.
  - unfold trace_fitting. rewrite !outcome_bind. cbn [tell lift outcome].
    by rewrite Hw.
Qed.

Lemma flat_zero_IndexError_witness :
  fittingRange tes_globals [0; 0; 0; 0]%float 0.2 = Raise IndexError ∧
  guessTES echo_externals tes_globals (unit_bins 4) [0; 0; 0; 0]%float
  = Raise IndexError ∧
  outcome (trace_fitting echo_externals tes_globals (unit_bins 4)
             [0; 0; 0; 0]%float (PyFunc "TESshape")
             (Some (guessTES echo_externals)) true)
  = Raise IndexError.
Proof.
  apply flat_zero_IndexError.
  - reflexivity.
  - discriminate.
  - repeat constructor.
Defined.

(** The exception a flat zero trace meets is not a [FeatureNotFound]. *)
Lemma flat_zero_not_FeatureNotFound :
  flat_zero [0; 0; 0; 0]%float ∧
  ¬ (∃ e, fittingRange tes_globals [0; 0; 0; 0]%float 0.2 = Raise e ∧
          exc_name e = "FeatureNotFound") ∧
  ¬ (∃ e, guessTES echo_externals tes_globals (unit_bins 4) [0; 0; 0; 0]%float
          = Raise e ∧ exc_name e = "FeatureNotFound").
Proof.
  split; [repeat constructor|].
  split; intros (e & He & Hname); vm_compute in He;
    injection He as <-; discriminate.
Qed.

(** ** Float comparison respects float equality *)

Lemma SFcompare_Eq_l (a b t : spec_float) :
  SFcompare a b = Some Eq → SFcompare a t = SFcompare b t.
Proof.
  destruct a as [sa|sa| |sa ma ea], b as [sb|sb| |sb mb eb]; simpl;
    try discriminate; try (by destruct sa); try (by destruct sb);
    try (by destruct sa, sb).
  intros H.
  assert (sa = sb ∧ ea = eb ∧ ma = mb) as (-> & -> & ->); [|done].
  destruct sa, sb; try discriminate;
    destruct (Z.compare ea eb) eqn:E; try discriminate;
    apply Z.compare_eq in E as ->;
    destruct (Pos.compare_cont Eq ma mb) eqn:E2; try discriminate;
    by apply Pos.compare_eq in E2 as ->.
Qed.

Lemma eqb_leb_l (x y t : float) :
  (x =? y)%float = true → (x <=? t)%float = (y <=? t)%float.
Proof.
  rewrite FloatAxioms.eqb_spec, !FloatAxioms.leb_spec. unfold SFeqb, SFleb.
  destruct (SFcompare (Prim2SF x) (Prim2SF y)) as [[]|] eqn:E; try discriminate.
  intros _. by rewrite (SFcompare_Eq_l _ _ _ E).
Qed.

Lemma index_from_Some i v xs k :
  index_from i v xs = Some k →
  ∃ j x, k = i + j ∧ xs !! j = Some x ∧ (x =? v)%float = true.
Proof.
  revert i. induction xs as [|y r IH]; intros i; simpl; [discriminate|].
  destruct (y =? v)%float eqn:E.
  - intros [= <-]. exists 0, y. repeat split; [lia|done].
  - intros H. destruct (IH _ H) as (j & x & -> & Hx & Hv).
    exists (S j), x. repeat split; [lia|done..].
Qed.

Lemma list_index_Ok xs v k :
  list_index xs v = Ok k → ∃ x, xs !! k = Some x ∧ (x =? v)%float = true.
Proof.
  unfold list_index. destruct (index_from 0 v xs) as [k'|] eqn:E; [|discriminate].
  intros [= ->]. apply index_from_Some in E as (j & x & -> & ? & ?). eauto.
Qed.

(** ** The TES fit window *)

(** C4: with the TES sensor selected, a window [s, e) returned by
    [fittingRange] has [s] the last index before the peak whose sample is at
    or below cut*peak and [e] the first index at or after the peak whose
    sample is at or below cut*peak; when the peak itself is not at or below
    cut*peak the peak index lies strictly between them; and every index of
    the window after [s] holds a sample that is not at or below cut*peak. *)
Theorem fittingRange_TES_window (g : gmap string pyobj) (trace : list float)
    (cut : float) (s e : nat) :
  g !! "sensorType" = Some (PyStr "TES") →
  fittingRange g trace cut = Ok (s, e) →
  ∃ peak ipeak,
    py_max trace = Ok peak ∧ list_index trace peak = Ok ipeak ∧
    s < ipeak ∧
    (∃ x, trace !! s = Some x ∧ (x <=? cut * peak)%float = true) ∧
    (∀ i x, s < i < ipeak → trace !! i = Some x →
            (x <=? cut * peak)%float = false) ∧
    ipeak ≤ e ∧
    (∃ x, trace !! e = Some x ∧ (x <=? cut * peak)%float = true) ∧
    (∀ i x, ipeak ≤ i < e → trace !! i = Some x →
            (x <=? cut * peak)%float = false) ∧
    ((peak <=? cut * peak)%float = false → s < ipeak < e) ∧
    (∀ i x, s < i < e → trace !! i = Some x →
            (x <=? cut * peak)%float = false).
Proof.
  intros Hg H. unfold fittingRange, load_name in H.
  apply bind_Ok in H as (peak & Hpeak & H).
  apply bind_Ok in H as (ipeak & Hipeak & H).
  rewrite Hg, bind_Ok_l in H. cbn [String.eqb Ascii.eqb Bool.eqb] in H.
  apply bind_Ok in H as (ilo & Hlo & H).
  apply bind_Ok in H as (j & Hhi & H). injection H as <- <-.
  apply last_of_mask in Hlo as [(x & Hx & Hxle) Hafter].
  apply first_of_mask in Hhi as [(y & Hy & Hyle) Hbefore].
  apply lookup_take_Some in Hx as [Hx Hlt]. rewrite lookup_drop in Hy.
  assert (Hrise : ∀ i x, ilo < i < ipeak → trace !! i = Some x →
                         (x <=? cut * peak)%float = false).
  { intros i v [? ?] Hv. apply (Hafter i v); [done|].
    by apply lookup_take_Some. }
  assert (Hfall : ∀ i x, ipeak ≤ i < ipeak + j → trace !! i = Some x →
                         (x <=? cut * peak)%float = false).
  { intros i v [? ?] Hv. apply (Hbefore (i - ipeak) v); [lia|].
    rewrite lookup_drop. by replace (ipeak + (i - ipeak)) with i by lia. }
  assert (Hin : (peak <=? cut * peak)%float = false → ipeak < ipeak + j).
  { intros Hp. destruct j as [|j]; [|lia]. exfalso.
    apply list_index_Ok in Hipeak as (v & Hv & Heq).
    rewrite Nat.add_0_r in Hy. rewrite Hv in Hy. injection Hy as ->.
    rewrite (eqb_leb_l _ _ _ Heq) in Hyle. congruence. }
  exists peak, ipeak.
  split; [done|]. split; [done|]. split; [done|]. split; [eauto|].
  split; [done|]. split; [lia|]. split; [eauto|]. split; [done|].
  split; [intros Hp; specialize (Hin Hp); lia|].
  intros i v [? ?] Hv. destruct (decide (i < ipeak)).
  - by apply (Hrise i v).
  - apply (Hfall i v); [lia|done].
Qed.

Lemma fittingRange_TES_window_witness :
  ∃ peak ipeak,
    py_max clean_peak = Ok peak ∧ list_index clean_peak peak = Ok ipeak ∧
    48 < ipeak ∧
    (∃ x, clean_peak !! 48 = Some x ∧ (x <=? 0.2 * peak)%float = true) ∧
    (∀ i x, 48 < i < ipeak → clean_peak !! i = Some x →
            (x <=? 0.2 * peak)%float = false) ∧
    ipeak ≤ 52 ∧
    (∃ x, clean_peak !! 52 = Some x ∧ (x <=? 0.2 * peak)%float = true) ∧
    (∀ i x, ipeak ≤ i < 52 → clean_peak !! i = Some x →
            (x <=? 0.2 * peak)%float = false) ∧
    ((peak <=? 0.2 * peak)%float = false → 48 < ipeak < 52) ∧
    (∀ i x, 48 < i < 52 → clean_peak !! i = Some x →
            (x <=? 0.2 * peak)%float = false).
Proof.
  apply (fittingRange_TES_window tes_globals clean_peak 0.2%float 48 52).
  - reflexivity.
  - vm_compute. reflexivity.
Defined.

(** On the clean peak at index 50 the window is [48, 52): it contains the
    peak, and also index 48, whose sample 1 is below 0.2*peak = 2. *)
Lemma clean_peak_window_keeps_low_sample :
  py_max clean_peak = Ok 10%float ∧
  list_index clean_peak 10 = Ok 50 ∧
  fittingRange tes_globals clean_peak 0.2 = Ok (48, 52) ∧
  ¬ excludes_below clean_peak (0.2 * 10) 48 52.
Proof.
  repeat split; try (vm_compute; reflexivity).
  intros H. apply (H 48 1%float); [reflexivity | reflexivity | lia].
Qed.

(** ** The fit and its calls *)

(** What a run of [trace_fitting] amounts to, stage by stage. *)
Lemma trace_fitting_run (ext : Externals) (g : gmap string pyobj)
    (bins trace : list float) (shape : pyobj) (gf : option GuessFn)
    (db : bool) :
  trace_fitting ext g bins trace shape gf db =
  match fittingRange g trace 0.2 with
  | Raise x => mkTraced [EvTraceFitting shape db] (Raise x)
  | Ok (s, e) =>
      match initial_guess g bins trace gf with
      | Raise x => mkTraced [EvTraceFitting shape db] (Raise x)
      | Ok p0 =>
          match fit_bounds g gf db with
          | Raise x => mkTraced [EvTraceFitting shape db] (Raise x)
          | Ok b =>
              mkTraced
                [EvTraceFitting shape db;
                 EvCurveFit shape (slice bins s e) (slice trace s e) p0 b]
                (curve_fit ext shape (slice bins s e) (slice trace s e) p0 b
                 ≫= unpack4)
          end
      end
  end.
Proof.
  unfold trace_fitting.
  destruct (fittingRange g trace 0.2) as [[s e]|x]; [|reflexivity].
  destruct (initial_guess g bins trace gf) as [p0|x]; [|reflexivity].
  destruct (fit_bounds g gf db) as [b|x]; [|reflexivity].
  unfold mbind at 1 2 3 4 5, traced_bind. cbn [tell lift outcome calls].
  destruct (curve_fit ext shape (slice bins s e) (slice trace s e) p0 b)
    as [fitted|x]; [|reflexivity].
  cbn. by destruct (unpack4 fitted).
Qed.

Lemma trace_fitting_calls (ext : Externals) (g : gmap string pyobj)
    (bins trace : list float) (shape : pyobj) (gf : option GuessFn)
    (db : bool) (ev : event) :
  ev ∈ calls (trace_fitting ext g bins trace shape gf db) →
  ev = EvTraceFitting shape db ∨
  ∃ s e p0 b,
    fittingRange g trace 0.2 = Ok (s, e) ∧
    initial_guess g bins trace gf = Ok p0 ∧
    fit_bounds g gf db = Ok b ∧
    ev = EvCurveFit shape (slice bins s e) (slice trace s e) p0 b.
Proof.
  rewrite trace_fitting_run.
  destruct (fittingRange g trace 0.2) as [[s e]|x]; cbn [calls];
    [|rewrite list_elem_of_singleton; by left].
  destruct (initial_guess g bins trace gf) as [p0|x]; cbn [calls];
    [|rewrite list_elem_of_singleton; by left].
  destruct (fit_bounds g gf db) as [b|x]; cbn [calls];
    [|rewrite list_elem_of_singleton; by left].
  rewrite elem_of_cons, list_elem_of_singleton.
  intros [->| ->]; [by left|]. right. by exists s, e, p0, b.
Qed.

Lemma trace_fitting_enters (ext : Externals) (g : gmap string pyobj)
    (bins trace : list float) (shape : pyobj) (gf : option GuessFn)
    (db : bool) :
  EvTraceFitting shape db ∈ calls (trace_fitting ext g bins trace shape gf db).
Proof.
  rewrite trace_fitting_run.
  destruct (fittingRange g trace 0.2) as [[s e]|x]; cbn [calls];
    [|apply list_elem_of_here].
  destruct (initial_guess g bins trace gf) as [p0|x]; cbn [calls];
    [|apply list_elem_of_here].
  destruct (fit_bounds g gf db) as [b|x]; apply list_elem_of_here.
Qed.

(** C3: every solver call made by [trace_fitting] is on the windowed
    arrays bins[start:end] and trace[start:end], where (start, end) is
    [fittingRange] of the full trace, and is seeded with the guess function
    applied to the full bins and trace; and whenever the window, the guess
    and the bounds are obtained, that solver call is made and its result is
    the result of the fit. *)
Theorem trace_fitting_data_flow (ext : Externals) (g : gmap string pyobj)
    (bins trace : list float) (shape : pyobj) (gf : option GuessFn)
    (db : bool) :
  (∀ f x y p0 b,
     EvCurveFit f x y p0 b ∈ calls (trace_fitting ext g bins trace shape gf db) →
     ∃ s e,
       fittingRange g trace 0.2 = Ok (s, e) ∧
       match gf with
       | Some guessFunc => ∃ p, guessFunc g bins trace = Ok p ∧ p0 = Some p
       | None => p0 = None
       end ∧
       f = shape ∧ x = slice bins s e ∧ y = slice trace s e) ∧
  (∀ s e p0 b,
     fittingRange g trace 0.2 = Ok (s, e) →
     initial_guess g bins trace gf = Ok p0 →
     fit_bounds g gf db = Ok b →
     calls (trace_fitting ext g bins trace shape gf db)
     = [EvTraceFitting shape db;
        EvCurveFit shape (slice bins s e) (slice trace s e) p0 b] ∧
     outcome (trace_fitting ext g bins trace shape gf db)
     = curve_fit ext shape (slice bins s e) (slice trace s e) p0 b ≫= unpack4).
Proof.
  split.
  - intros f x y p0 b Hin.
    apply trace_fitting_calls in Hin as [Hin|(s & e & p & b' & Hw & Hg & _ & Hin)];
      [discriminate|].
    injection Hin as -> -> -> -> ->. exists s, e. split; [done|].
    split; [|done]. unfold initial_guess in Hg. destruct gf as [guessFunc|].
    + apply bind_Ok in Hg as (q & Hq & Hg). injection Hg as <-. eauto.
    + by injection Hg as <-.
  - intros s e p0 b Hw Hg Hb. rewrite trace_fitting_run, Hw, Hg, Hb. done.
Qed.

Lemma trace_fitting_data_flow_witness :
  ∃ s e,
    fittingRange fet_globals fet_pulse 0.2 = Ok (s, e) ∧
    (∃ p, guessFET fet_globals fet_bins fet_pulse = Ok p ∧
          Some (10, 1, 0, 0)%float = Some p) ∧
    PyFunc "FETshape" = PyFunc "FETshape" ∧
    [2; 3; 4; 5]%float = slice fet_bins s e ∧
    [5; 2; 0; 0]%float = slice fet_pulse s e.
Proof.
  apply (proj1 (trace_fitting_data_flow echo_externals fet_globals fet_bins
                  fet_pulse (PyFunc "FETshape") (Some guessFET) false)
           _ _ _ _ unconstrained).
  vm_compute. apply list_elem_of_further, list_elem_of_here.
Defined.

(** The calls of the two sensor-specific drivers are those of their one
    call of [trace_fitting]. *)
Lemma traceFit_TES_calls (ext : Externals) (g : gmap string pyobj)
    (file detname : string) (evno channel : Z) (doplot : bool) (ev : event) :
  ev ∈ calls (traceFit_TES ext g file detname evno channel doplot) →
  ∃ bins trace,
    ev ∈ calls (trace_fitting ext g bins trace (PyFunc "TESshape")
                  (Some (guessTES ext)) true).
Proof.
  unfold traceFit_TES. rewrite lift_bind.
  destruct (getTES ext file evno channel) as [[[[bins trace] I0] E]|x];
    [|by intros ?%elem_of_nil].
  rewrite lift_bind. destruct (py_max trace) as [m|x];
    [|by intros ?%elem_of_nil].
  rewrite elem_of_calls_bind. intros [H|([[[a tR] tF] off] & _ & H)]; [eauto|].
  exfalso. revert H. rewrite lift_bind.
  destruct (if doplot then _ else _); [|by intros ?%elem_of_nil].
  rewrite lift_bind.
  destruct (load_name g "titleName"); [|by intros ?%elem_of_nil].
  rewrite lift_bind. destruct (py_max trace); by intros ?%elem_of_nil.
Qed.

Lemma traceFit_FET_calls (ext : Externals) (g : gmap string pyobj)
    (file detname : string) (evno channel : Z) (doplot : bool) (ev : event) :
  ev ∈ calls (traceFit_FET ext g file detname evno channel doplot) →
  ∃ bins trace,
    ev ∈ calls (trace_fitting ext g bins trace (PyFunc "FETshape")
                  (Some guessFET) false).
Proof.
  unfold traceFit_FET. rewrite lift_bind.
  destruct (getFET ext file evno channel) as [[[bins trace] Q]|x];
    [|by intros ?%elem_of_nil].
  rewrite elem_of_calls_bind. intros [H|([[[a tR] tF] off] & _ & H)]; [eauto|].
  exfalso. revert H. rewrite lift_bind.
  destruct (if doplot then _ else _); by intros ?%elem_of_nil.
Qed.

(** ** The TES guess never returns *)

Lemma guessTES_not_Ok (ext : Externals) (g : gmap string pyobj)
    (bins trace : list float) :
  g !! "pulseShape" = None → is_ok (guessTES ext g bins trace) = false.
Proof.
  intros Hg. destruct (guessTES ext g bins trace) as [p|x] eqn:E; [|done].
  exfalso. unfold guessTES in E. cbv zeta in E.
  repeat (apply bind_Ok in E as (? & ? & E)).
  match goal with
  | H : load_name g "pulseShape" = Ok _ |- _ =>
      unfold load_name in H; rewrite Hg in H; discriminate
  end.
Qed.

Lemma trace_fitting_TES_aborts (ext : Externals) (g : gmap string pyobj)
    (bins trace : list float) (shape : pyobj) (db : bool) :
  g !! "pulseShape" = None →
  is_ok (outcome (trace_fitting ext g bins trace shape
                    (Some (guessTES ext)) db)) = false ∧
  ∀ f x y p0 b,
    EvCurveFit f x y p0 b
      ∉ calls (trace_fitting ext g bins trace shape (Some (guessTES ext)) db).
Proof.
  intros Hg. pose proof (guessTES_not_Ok ext g bins trace Hg) as Hno.
  rewrite trace_fitting_run. unfold initial_guess.
  destruct (fittingRange g trace 0.2) as [[s e]|x].
  - destruct (guessTES ext g bins trace) as [p|x]; [discriminate|].
    cbn. split; [done|]. intros f x' y p0 b Hin.
    apply list_elem_of_singleton in Hin. discriminate.
  - cbn. split; [done|]. intros f x' y p0 b Hin.
    apply list_elem_of_singleton in Hin. discriminate.
Qed.

(** C9: in every namespace the program can be in, [guessTES] never returns
    a parameter vector; when its four threshold searches succeed on a trace
    paired with a bin axis of the same length it raises [NameError] for
    [pulseShape]; and the TES fit built on it, in [trace_fitting] and in
    [traceFit_TES], ends in an exception without any solver call. *)
Theorem guessTES_NameError (ext : Externals) (g : gmap string pyobj)
    (bins trace : list float) :
  reachable g →
  is_ok (guessTES ext g bins trace) = false ∧
  (∀ peak ipeak,
     length bins = length trace →
     np_max trace = Ok peak → np_argmax trace = Ok ipeak →
     is_ok (last_le (take ipeak trace) (0.1 * peak)) = true →
     is_ok (last_le (take ipeak trace) (0.2 * peak * np_e)) = true →
     is_ok (first_le (drop ipeak trace) (0.8 * peak)) = true →
     is_ok (first_le (drop ipeak trace) (0.4 * peak / np_e)) = true →
     guessTES ext g bins trace = Raise (NameError "pulseShape")) ∧
  (∀ shape db,
     is_ok (outcome (trace_fitting ext g bins trace shape
                       (Some (guessTES ext)) db)) = false ∧
     ∀ f x y p0 b,
       EvCurveFit f x y p0 b
         ∉ calls (trace_fitting ext g bins trace shape (Some (guessTES ext)) db)) ∧
  (∀ file detname evno channel doplot,
     is_ok (outcome (traceFit_TES ext g file detname evno channel doplot))
     = false ∧
     ∀ f x y p0 b,
       EvCurveFit f x y p0 b
         ∉ calls (traceFit_TES ext g file detname evno channel doplot)).
Proof.
  intros Hr.
  assert (Hg : g !! "pulseShape" = None).
  { apply reachable_unbound; [done|]. set_solver. }
  split; [by apply guessTES_not_Ok|]. split; [|split].
  - intros peak ipeak Hlen Hmax Harg H1 H2 H3 H4.
    apply is_ok_true in H1 as [rlo H1]. apply is_ok_true in H2 as [rhi H2].
    apply is_ok_true in H3 as [flo H3]. apply is_ok_true in H4 as [fhi H4].
    pose proof (np_argmax_lt _ _ Harg) as Hip.
    assert (Hrise : ∀ t k, last_le (take ipeak trace) t = Ok k →
                           k < length bins).
    { intros t k Hk. apply last_of_mask in Hk as [(x & Hx & _) _].
      apply lookup_take_Some in Hx as [Hx _]. apply lookup_lt_Some in Hx. lia. }
    assert (Hfall : ∀ t k, first_le (drop ipeak trace) t = Ok k →
                           k < length bins).
    { intros t k Hk. apply first_of_mask in Hk as [(x & Hx & _) _].
      rewrite lookup_drop in Hx. apply lookup_lt_Some in Hx. lia. }
    destruct (getitem_lt bins ipeak) as (b_peak & Hb_peak & _); [lia|].
    destruct (getitem_lt bins rlo (Hrise _ _ H1)) as (b_rlo & Hb_rlo & _).
    destruct (getitem_lt bins rhi (Hrise _ _ H2)) as (b_rhi & Hb_rhi & _).
    destruct (getitem_lt bins flo (Hfall _ _ H3)) as (b_flo & Hb_flo & _).
    destruct (getitem_lt bins fhi (Hfall _ _ H4)) as (b_fhi & Hb_fhi & _).
    unfold guessTES, load_name.
    rewrite Hmax, bind_Ok_l, Harg, bind_Ok_l, Hb_peak, bind_Ok_l.
    rewrite H1, bind_Ok_l, H2, bind_Ok_l, Hb_rhi, bind_Ok_l, Hb_rlo, bind_Ok_l.
    rewrite H3, bind_Ok_l, H4, bind_Ok_l, Hb_fhi, bind_Ok_l, Hb_flo, bind_Ok_l.
    cbv zeta. rewrite bind_Ok_l, Hg. reflexivity.
  - intros shape db. by apply trace_fitting_TES_aborts.
  - intros file detname evno channel doplot. split.
    + unfold traceFit_TES. rewrite lift_bind.
      destruct (getTES ext file evno channel) as [[[[bins' trace'] I0] E]|x];
        [|done].
      rewrite lift_bind. destruct (py_max trace') as [m|x]; [|done].
      rewrite outcome_bind.
      match goal with
      | |- context [match @outcome ?A ?t with _ => _ end] =>
          pose proof (proj1 (trace_fitting_TES_aborts ext g bins' trace'
                               (PyFunc "TESshape") true Hg)
                      : is_ok (@outcome A t) = false) as Hno;
          destruct (@outcome A t); [discriminate|done]
      end.
    + intros f x y p0 b (bins' & trace' & Hin)%traceFit_TES_calls.
      by eapply trace_fitting_TES_aborts.
Qed.

Lemma guessTES_NameError_witness :
  guessTES echo_externals tes_globals (unit_bins 101) clean_peak
  = Raise (NameError "pulseShape").
Proof.
  apply (proj1 (proj2 (guessTES_NameError echo_externals tes_globals
                         (unit_bins 101) clean_peak tes_globals_reachable))
           10%float 50); reflexivity.
Defined.

(** ** The FET guess *)

(** What a successful [guessFET] went through. *)
Lemma guessFET_Ok (g : gmap string pyobj) (bins trace : list float)
    (p : params) :
  guessFET g bins trace = Ok p →
  ∃ peak ipeak i0 decayGuess tmin imin recoveryGuess,
    np_max trace = Ok peak ∧ np_argmax trace = Ok ipeak ∧
    first_ge bins 0 = Ok i0 ∧
    decay_guess bins trace peak ipeak = Ok decayGuess ∧
    np_min trace = Ok tmin ∧ np_argmin trace = Ok imin ∧
    (if (tmin <? 0)%float
     then raw ← recovery_raw bins trace tmin imin;
          Ok (if (raw <? 0.1 * decayGuess)%float then 0%float else raw)
     else Ok 0%float) = Ok recoveryGuess ∧
    p = ((peak / (decayGuess - recoveryGuess))%float, decayGuess,
         recoveryGuess,
         float_of_Z (Z.of_nat ipeak - Z.of_nat (i0 + 1))).
Proof.
  intros H. unfold guessFET in H. cbv zeta in H.
  apply bind_Ok in H as (peak & Hpeak & H).
  apply bind_Ok in H as (ipeak & Hipeak & H).
  apply bind_Ok in H as (_ & _ & H).
  apply bind_Ok in H as (i0 & Hi0 & H).
  apply bind_Ok in H as (decayGuess & Hdecay & H).
  apply bind_Ok in H as (tmin & Htmin & H).
  apply bind_Ok in H as (imin & Himin & H).
  apply bind_Ok in H as (_ & _ & H).
  apply bind_Ok in H as (recoveryGuess & Hrec & H).
  injection H as <-.
  by exists peak, ipeak, i0, decayGuess, tmin, imin, recoveryGuess.
Qed.

(** C5: when [guessFET] succeeds, its decay rate is 2/(bins[k] - bins[0])
    where k is the position, counted from the peak, of the last sample at or
    after the peak whose value is at or above peak/(2e). *)
Theorem guessFET_decay_rate (g : gmap string pyobj) (bins trace : list float)
    (scale decay recovery offset : float) :
  guessFET g bins trace = Ok (scale, decay, recovery, offset) →
  ∃ peak ipeak k x b_k b_0,
    np_max trace = Ok peak ∧ np_argmax trace = Ok ipeak ∧
    trace !! (ipeak + k) = Some x ∧
    (peak / (2 * np_e) <=? x)%float = true ∧
    (∀ j y, k < j → trace !! (ipeak + j) = Some y →
            (peak / (2 * np_e) <=? y)%float = false) ∧
    bins !! k = Some b_k ∧ bins !! 0 = Some b_0 ∧
    decay = (2 / (b_k - b_0))%float.
Proof.
  intros H.
  apply guessFET_Ok in H
    as (peak & ipeak & i0 & d & tmin & imin & r & Hpeak & Hipeak & _ & Hd & _
        & _ & _ & Hp).
  injection Hp as -> -> -> ->.
  unfold decay_guess in Hd.
  apply bind_Ok in Hd as (k & Hk & Hd).
  apply bind_Ok in Hd as (b_k & Hb_k & Hd).
  apply bind_Ok in Hd as (b_0 & Hb_0 & Hd). injection Hd as <-.
  apply last_of_mask in Hk as [(x & Hx & Hge) Hlast].
  rewrite lookup_drop in Hx.
  exists peak, ipeak, k, x, b_k, b_0.
  split; [done|]. split; [done|]. split; [done|]. split; [done|].
  split; [|by split; [apply getitem_Ok | split; [apply getitem_Ok|]]].
  intros j y Hj Hy. apply (Hlast j y Hj). by rewrite lookup_drop.
Qed.

Lemma guessFET_decay_rate_witness :
  ∃ peak ipeak k x b_k b_0,
    np_max fet_pulse = Ok peak ∧ np_argmax fet_pulse = Ok ipeak ∧
    fet_pulse !! (ipeak + k) = Some x ∧
    (peak / (2 * np_e) <=? x)%float = true ∧
    (∀ j y, k < j → fet_pulse !! (ipeak + j) = Some y →
            (peak / (2 * np_e) <=? y)%float = false) ∧
    fet_bins !! k = Some b_k ∧ fet_bins !! 0 = Some b_0 ∧
    1%float = (2 / (b_k - b_0))%float.
Proof.
  apply (guessFET_decay_rate fet_globals fet_bins fet_pulse 10 1 0 0).
  reflexivity.
Defined.

(** On the pulse peaking at index 1 the sample in question is at index 3
    of the trace; the code reads bins[2], giving decay rate 1, where the
    time at index 3 gives 2/3. *)
Lemma guessFET_decay_reads_relative_bin :
  guessFET fet_globals fet_bins fet_pulse = Ok (10, 1, 0, 0)%float ∧
  np_max fet_pulse = Ok 10%float ∧ np_argmax fet_pulse = Ok 1 ∧
  last_ge (drop 1 fet_pulse) (10 / (2 * np_e))%float = Ok 2 ∧
  decay_guess_spec fet_bins fet_pulse 10 1 = Ok (2 / 3)%float ∧
  (1 =? 2 / 3)%float = false.
Proof. repeat split; vm_compute; reflexivity. Qed.

(** C7: when [guessFET] succeeds and the raw recovery rate, computed from
    the minimum of the trace as under [if tmin < 0], is less than 0.1 times
    the decay rate, the recovery rate of the returned guess is 0.  This
    holds whatever the sign of the minimum; below zero is the case in which
    the code computes the raw rate at all. *)
Theorem guessFET_recovery_clamp (g : gmap string pyobj) (bins trace : list float)
    (scale decay recovery offset tmin raw : float) (imin : nat) :
  guessFET g bins trace = Ok (scale, decay, recovery, offset) →
  np_min trace = Ok tmin → np_argmin trace = Ok imin →
  recovery_raw bins trace tmin imin = Ok raw →
  (raw <? 0.1 * decay)%float = true →
  recovery = 0%float.
Proof.
  intros H Htmin Himin Hraw Hlt.
  apply guessFET_Ok in H
    as (peak & ipeak & i0 & d & tmin' & imin' & r & _ & _ & _ & _ & Htmin'
        & Himin' & Hr & Hp).
  injection Hp as -> -> -> ->.
  rewrite Htmin in Htmin'. injection Htmin' as <-.
  rewrite Himin in Himin'. injection Himin' as <-.
  rewrite Hraw, bind_Ok_l, Hlt in Hr.
  destruct (tmin <? 0)%float; by injection Hr as <-.
Qed.

Lemma guessFET_recovery_clamp_witness :
  guessFET fet_globals (unit_bins 46) undershoot = Ok (10, 1, 0, -1)%float ∧
  np_min undershoot = Ok (-2)%float ∧
  recovery_raw (unit_bins 46) undershoot (-2) 4 = Ok 0.05%float ∧
  (0.05 <? 0.1 * 1)%float = true ∧
  0%float = 0%float.
Proof.
  assert (H1 : guessFET fet_globals (unit_bins 46) undershoot
               = Ok (10, 1, 0, -1)%float) by reflexivity.
  assert (H2 : np_min undershoot = Ok (-2)%float) by reflexivity.
  assert (H3 : recovery_raw (unit_bins 46) undershoot (-2) 4
               = Ok 0.05%float) by reflexivity.
  assert (H4 : (0.05 <? 0.1 * 1)%float = true) by reflexivity.
  split; [exact H1|]. split; [exact H2|]. split; [exact H3|].
  split; [exact H4|].
  exact (guessFET_recovery_clamp fet_globals (unit_bins 46) undershoot
           10 1 0 (-1) (-2) 0.05 4 H1 H2 eq_refl H3 H4).
Defined.

(** ** What the bounds loop computes once a guess vector is in scope *)



Example guessRange_bound_0234 :
  ∃ b, guessRange (<["guess" := PySeq [0; 2; 3; 4]%float]> tes_globals)
         (Some guessFET) = Ok b ∧
       bounds_at b 0 = Some ((- np_inf)%float, np_inf) ∧
       bounds_at b 1 = Some (0.2, 10)%float.
Proof. eexists. repeat split; vm_compute; reflexivity. Qed.

(** ** The dispatcher *)

Lemma traceFit_sets_sensor (ext : Externals) (g : gmap string pyobj)
    (file detname sensor : string) (evno channel : Z) (doplot : bool) :
  reachable g →
  let g' := fst (traceFit ext g file detname sensor evno channel doplot) in
  reachable g' ∧ g' !! "sensorType" = Some (PyStr sensor).
Proof.
  intros Hr. simpl. split; [by apply reach_sensor|]. by rewrite lookup_insert_eq.
Qed.

Lemma traceFit_dispatch (ext : Externals) (g : gmap string pyobj)
    (file detname : string) (evno channel : Z) (doplot : bool) :
  snd (traceFit ext g file detname "TES" evno channel doplot)
  = traceFit_TES ext (<["sensorType" := PyStr "TES"]> g) file detname evno
      channel doplot ∧
  snd (traceFit ext g file detname "FET" evno channel doplot)
  = traceFit_FET ext (<["sensorType" := PyStr "FET"]> g) file detname evno
      channel doplot ∧
  outcome (snd (traceFit ext g file detname "SQUID" evno channel doplot))
  = Raise (SystemExit 2).
Proof. done. Qed.

(** ** The FET shape over the reals *)

Section Analytic.
Local Open Scope R_scope.

Lemma exp_le_1 (x : R) : x <= 0 -> exp x <= 1.
Proof.
  intros [H|H].
  - left. rewrite <- exp_0. by apply exp_increasing.
  - subst. rewrite exp_0. lra.
Qed.

Lemma mul_exp_neg_le_1 (u : R) : 0 <= u -> u * exp (- u) <= 1.
Proof.
  intros Hu. pose proof (exp_ineq1_le u) as H1.
  pose proof (exp_pos (- u)) as H2.
  assert (H3 : exp u * exp (- u) = 1).
  { rewrite <- exp_plus. replace (u + - u) with 0 by ring. apply exp_0. }
  nra.
Qed.

(** From the pulse onset on, the bracket of [FETshape] stays within
    D - R of zero. *)
Lemma double_exp_bound (s D R : R) :
  0 <= s -> 0 <= R -> R < D ->
  Rabs (exp (- s * D) * D - exp (- s * R) * R) <= D - R.
Proof.
  intros Hs HR HD.
  replace (- s * D) with (- (s * R) + - (s * (D - R))) by ring.
  replace (- s * R) with (- (s * R)) by ring.
  rewrite exp_plus.
  set (E1 := exp (- (s * R))). set (E2 := exp (- (s * (D - R)))).
  assert (0 < E1) by apply exp_pos. assert (0 < E2) by apply exp_pos.
  assert (E1 <= 1) by (apply exp_le_1; nra).
  assert (E2 <= 1) by (apply exp_le_1; nra).
  assert (HE2 : 1 - E2 <= s * (D - R)).
  { pose proof (exp_ineq1_le (- (s * (D - R)))) as Hx. fold E2 in Hx. lra. }
  assert (s * R * E1 <= 1) by (apply mul_exp_neg_le_1; nra).
  assert (0 <= E1 * E2) by nra.
  assert (E1 * E2 <= E1) by nra.
  apply Rabs_le. split.
  - assert (R * E1 * (1 - E2) <= R * E1 * (s * (D - R))).
    { apply Rmult_le_compat_l; [nra|done]. }
    assert (R * E1 * (s * (D - R)) <= D - R).
    { replace (R * E1 * (s * (D - R))) with ((s * R * E1) * (D - R)) by ring.
      nra. }
    nra.
  - nra.
Qed.

(** C6: for real a, invTd, invTr, t0 with invTd > invTr >= 0, [FETshape]
    at t = t0 equals a*(invTd - invTr); from t0 on its magnitude never
    exceeds that value's, so for a >= 0 it is the peak; and it equals a only
    when a = 0 or invTd - invTr = 1. *)
Theorem FETshape_peak (a invTd invTr t0 : R) :
  invTd > invTr -> invTr >= 0 ->
  FETshape t0 a invTd invTr t0 = a * (invTd - invTr) /\
  (forall t, t0 <= t ->
     Rabs (FETshape t a invTd invTr t0) <= Rabs (a * (invTd - invTr))) /\
  (0 <= a -> forall t, t0 <= t ->
     FETshape t a invTd invTr t0 <= FETshape t0 a invTd invTr t0) /\
  (a * (invTd - invTr) = a <-> a = 0 \/ invTd - invTr = 1).
Proof.
  intros Hd Hr.
  assert (H0 : FETshape t0 a invTd invTr t0 = a * (invTd - invTr)).
  { unfold FETshape. simpl.
    replace (- (t0 - t0) * invTd) with 0 by ring.
    replace (- (t0 - t0) * invTr) with 0 by ring.
    rewrite exp_0. ring. }
  assert (Habs : forall t, t0 <= t ->
     Rabs (FETshape t a invTd invTr t0) <= Rabs (a * (invTd - invTr))).
  { intros t Ht. unfold FETshape. simpl. rewrite !Rabs_mult.
    apply Rmult_le_compat_l; [apply Rabs_pos|].
    rewrite (Rabs_pos_eq (invTd - invTr)) by lra.
    apply double_exp_bound; lra. }
  split; [done|]. split; [done|]. split.
  - intros Ha t Ht. rewrite H0. specialize (Habs t Ht).
    rewrite (Rabs_pos_eq (a * (invTd - invTr))) in Habs by nra.
    pose proof (Rle_abs (FETshape t a invTd invTr t0)). lra.
  - split.
    + intros H. destruct (Req_dec a 0) as [->|Hne]; [by left|right]. nra.
    + intros [->|H]; [ring|]. rewrite H. ring.
Qed.

(** The bound is stated from the onset t0 on: before it the closed form
    grows without limit, e.g. one time unit early it is already 2e^2 - e. *)
Lemma FETshape_before_onset : FETshape (-1) 1 2 1 0 > 1 * (2 - 1).
Proof.
  unfold FETshape. simpl.
  replace (- (-1 - 0) * 2) with (1 + 1) by ring.
  replace (- (-1 - 0) * 1) with 1 by ring.
  rewrite exp_plus. pose proof (exp_ineq1_le 1). nra.
Qed.

Lemma FETshape_peak_witness :
  FETshape 5 2 3 1 5 = 2 * (3 - 1) /\
  (forall t, 5 <= t -> Rabs (FETshape t 2 3 1 5) <= Rabs (2 * (3 - 1))) /\
  (0 <= 2 -> forall t, 5 <= t -> FETshape t 2 3 1 5 <= FETshape 5 2 3 1 5) /\
  (2 * (3 - 1) = 2 <-> 2 = 0 \/ 3 - 1 = 1).
Proof. apply (FETshape_peak 2 3 1 5); lra. Defined.

End Analytic.

(** * Further properties *)

(** ** Threshold searches, completely *)

Lemma elem_of_nonzero_from i mask j :
  mask !! j = Some true → (i + j) ∈ nonzero_from i mask.
Proof.
  revert i j. induction mask as [|b r IH]; intros i j; [done|].
  destruct j as [|j]; simpl.
  - intros [= ->]. rewrite Nat.add_0_r. apply list_elem_of_here.
  - intros Hj. replace (i + S j) with (S i + j) by lia.
    destruct b; [apply list_elem_of_further|]; by apply IH.
Qed.

Lemma nonzero_nonempty (mask : list bool) (j : nat) :
  mask !! j = Some true → np_nonzero mask ≠ [].
Proof.
  intros Hj Hnil. pose proof (elem_of_nonzero_from 0 mask j Hj) as Hin.
  unfold np_nonzero in Hnil. rewrite Hnil in Hin. by apply elem_of_nil in Hin.
Qed.

Section SearchComplete.
Variable p : float → bool.

Lemma first_of_mask_complete xs k :
  (∃ x, xs !! k = Some x ∧ p x = true) →
  (∀ j y, j < k → xs !! j = Some y → p y = false) →
  first_of (np_nonzero (p <$> xs)) = Ok k.
Proof.
  intros (x & Hx & Hpx) Hbefore.
  destruct (first_of (np_nonzero (p <$> xs))) as [k'|e] eqn:E.
  - apply first_of_mask in E as [(x' & Hx' & Hpx') Hbefore'].
    destruct (Nat.lt_trichotomy k' k) as [Hlt|[->|Hlt]]; [|done|].
    + rewrite (Hbefore k' x' Hlt Hx') in Hpx'. discriminate.
    + rewrite (Hbefore' k x Hlt Hx) in Hpx. discriminate.
  - exfalso. unfold first_of in E.
    destruct (np_nonzero (p <$> xs)) eqn:Hnz; [|discriminate].
    eapply (nonzero_nonempty (p <$> xs) k); [|done].
    by rewrite list_lookup_fmap, Hx, <- Hpx.
Qed.

Lemma last_of_mask_complete xs k :
  (∃ x, xs !! k = Some x ∧ p x = true) →
  (∀ j y, k < j → xs !! j = Some y → p y = false) →
  last_of (np_nonzero (p <$> xs)) = Ok k.
Proof.
  intros (x & Hx & Hpx) Hafter.
  destruct (last_of (np_nonzero (p <$> xs))) as [k'|e] eqn:E.
  - apply last_of_mask in E as [(x' & Hx' & Hpx') Hafter'].
    destruct (Nat.lt_trichotomy k' k) as [Hlt|[->|Hlt]]; [|done|].
    + rewrite (Hafter' k x Hlt Hx) in Hpx. discriminate.
    + rewrite (Hafter k' x' Hlt Hx') in Hpx'. discriminate.
  - exfalso. unfold last_of in E.
    destruct (last (np_nonzero (p <$> xs))) eqn:Hl; [discriminate|].
    apply last_None in Hl.
    eapply (nonzero_nonempty (p <$> xs) k); [|done].
    by rewrite list_lookup_fmap, Hx, <- Hpx.
Qed.

Lemma mask_search_none xs :
  (∀ j y, xs !! j = Some y → p y = false) →
  first_of (np_nonzero (p <$> xs)) = Raise IndexError ∧
  last_of (np_nonzero (p <$> xs)) = Raise IndexError.
Proof.
  intros Hnone. split.
  - destruct (first_of _) as [k|e] eqn:E.
    + apply first_of_mask in E as [(x & Hx & Hpx) _].
      rewrite (Hnone k x Hx) in Hpx. discriminate.
    + by apply first_of_mask_raise in E as ->.
  - destruct (last_of _) as [k|e] eqn:E.
    + apply last_of_mask in E as [(x & Hx & Hpx) _].
      rewrite (Hnone k x Hx) in Hpx. discriminate.
    + by apply last_of_mask_raise in E as ->.
Qed.

Lemma mask_search_some xs j y :
  xs !! j = Some y → p y = true →
  is_ok (first_of (np_nonzero (p <$> xs))) = true ∧
  is_ok (last_of (np_nonzero (p <$> xs))) = true.
Proof.
  intros Hy Hpy.
  assert (Hne : np_nonzero (p <$> xs) ≠ []).
  { apply (nonzero_nonempty _ j). by rewrite list_lookup_fmap, Hy, <- Hpy. }
  split.
  - unfold first_of. by destruct (np_nonzero (p <$> xs)).
  - unfold last_of. destruct (last (np_nonzero (p <$> xs))) eqn:Hl; [done|].
    by apply last_None in Hl.
Qed.
End SearchComplete.

(** X1: the two searches from the left, [first_le] and [first_ge], return
    k exactly when sample k meets the threshold and no earlier sample does,
    and raise [IndexError] exactly when no sample meets it. *)
Theorem first_search_characterised (xs : list float) (t : float) :
  (∀ k, first_le xs t = Ok k ↔
        (∃ x, xs !! k = Some x ∧ (x <=? t)%float = true) ∧
        (∀ j y, j < k → xs !! j = Some y → (y <=? t)%float = false)) ∧
  (first_le xs t = Raise IndexError ↔
   ∀ j y, xs !! j = Some y → (y <=? t)%float = false) ∧
  (∀ k, first_ge xs t = Ok k ↔
        (∃ x, xs !! k = Some x ∧ (t <=? x)%float = true) ∧
        (∀ j y, j < k → xs !! j = Some y → (t <=? y)%float = false)) ∧
  (first_ge xs t = Raise IndexError ↔
   ∀ j y, xs !! j = Some y → (t <=? y)%float = false).
Proof.
  assert (H : ∀ p : float → bool,
    (∀ k, first_of (np_nonzero (p <$> xs)) = Ok k ↔
          (∃ x, xs !! k = Some x ∧ p x = true) ∧
          (∀ j y, j < k → xs !! j = Some y → p y = false)) ∧
    (first_of (np_nonzero (p <$> xs)) = Raise IndexError ↔
     ∀ j y, xs !! j = Some y → p y = false)).
  { intros p. split.
    - intros k. split; [apply first_of_mask|].
      intros [? ?]. by apply first_of_mask_complete.
    - split; [|intros Hn; exact (proj1 (mask_search_none p xs Hn))].
      intros Hr j y Hy. destruct (p y) eqn:Hpy; [|done].
      destruct (mask_search_some p xs j y Hy Hpy) as [Hok _].
      rewrite Hr in Hok. discriminate. }
  destruct (H (λ x, (x <=? t)%float)) as [H1 H2].
  destruct (H (λ x, (t <=? x)%float)) as [H3 H4].
  done.
Qed.

(** X2: the two searches from the right, [last_le] and [last_ge], return
    k exactly when sample k meets the threshold and no later sample does,
    and raise [IndexError] exactly when no sample meets it. *)
Theorem last_search_characterised (xs : list float) (t : float) :
  (∀ k, last_le xs t = Ok k ↔
        (∃ x, xs !! k = Some x ∧ (x <=? t)%float = true) ∧
        (∀ j y, k < j → xs !! j = Some y → (y <=? t)%float = false)) ∧
  (last_le xs t = Raise IndexError ↔
   ∀ j y, xs !! j = Some y → (y <=? t)%float = false) ∧
  (∀ k, last_ge xs t = Ok k ↔
        (∃ x, xs !! k = Some x ∧ (t <=? x)%float = true) ∧
        (∀ j y, k < j → xs !! j = Some y → (t <=? y)%float = false)) ∧
  (last_ge xs t = Raise IndexError ↔
   ∀ j y, xs !! j = Some y → (t <=? y)%float = false).
Proof.
  assert (H : ∀ p : float → bool,
    (∀ k, last_of (np_nonzero (p <$> xs)) = Ok k ↔
          (∃ x, xs !! k = Some x ∧ p x = true) ∧
          (∀ j y, k < j → xs !! j = Some y → p y = false)) ∧
    (last_of (np_nonzero (p <$> xs)) = Raise IndexError ↔
     ∀ j y, xs !! j = Some y → p y = false)).
  { intros p. split.
    - intros k. split; [apply last_of_mask|].
      intros [? ?]. by apply last_of_mask_complete.
    - split; [|intros Hn; exact (proj2 (mask_search_none p xs Hn))].
      intros Hr j y Hy. destruct (p y) eqn:Hpy; [|done].
      destruct (mask_search_some p xs j y Hy Hpy) as [_ Hok].
      rewrite Hr in Hok. discriminate. }
  destruct (H (λ x, (x <=? t)%float)) as [H1 H2].
  destruct (H (λ x, (t <=? x)%float)) as [H3 H4].
  done.
Qed.

(** ** The peak and where it is *)

Lemma np_max_nan_acc (r : list float) (mp : float) :
  PrimFloat.is_nan mp = true → fold_left np_max_step r mp = mp.
Proof.
  intros Hn. induction r as [|x r IH]; [done|]. simpl.
  unfold np_max_step at 2. by rewrite Hn.
Qed.

Lemma argmax_scan_max (r : list float) (mp : float) (best i : nat) :
  (argmax_scan mp best i r = best ∧ fold_left np_max_step r mp = mp) ∨
  (∃ j, argmax_scan mp best i r = i + j ∧
        r !! j = Some (fold_left np_max_step r mp)).
Proof.
  revert mp best i. induction r as [|x r IH]; intros mp best i; [by left|].
  simpl. destruct (PrimFloat.is_nan mp) eqn:Hn.
  - left. split; [done|]. unfold np_max_step at 2. rewrite Hn. simpl.
    by apply np_max_nan_acc.
  - unfold np_max_step at 2 4. rewrite Hn. simpl.
    destruct (x <=? mp)%float.
    + destruct (IH mp best (S i)) as [[-> ->]|(j & -> & Hj)]; [by left|].
      right. exists (S j). split; [lia|done].
    + destruct (IH x i (S i)) as [[-> ->]|(j & -> & Hj)].
      * right. exists 0. split; [lia|done].
      * right. exists (S j). split; [lia|done].
Qed.

(** ** NaN and float equality *)

Lemma SFcompare_refl (a : spec_float) :
  a ≠ S754_nan → SFcompare a a = Some Eq.
Proof.
  destruct a as [s|s| |s m e]; simpl; try done; intros _.
  - by destruct s.
  - rewrite Z.compare_refl, Pos.compare_cont_refl. by destruct s.
Qed.

Lemma is_nan_Prim2SF (x : float) :
  PrimFloat.is_nan x = true → Prim2SF x = S754_nan.
Proof.
  unfold PrimFloat.is_nan. rewrite FloatAxioms.eqb_spec. unfold SFeqb.
  destruct (Prim2SF x) as [s|s| |s m e] eqn:E; try done;
    rewrite SFcompare_refl; done.
Qed.

Lemma eqb_nan_r (y x : float) :
  PrimFloat.is_nan x = true → (y =? x)%float = false.
Proof.
  intros Hn. rewrite FloatAxioms.eqb_spec, (is_nan_Prim2SF x Hn).
  unfold SFeqb. by destruct (Prim2SF y).
Qed.

Lemma ltb_nan_l (x y : float) :
  PrimFloat.is_nan x = true → (x <? y)%float = false.
Proof.
  intros Hn. rewrite FloatAxioms.ltb_spec, (is_nan_Prim2SF x Hn). done.
Qed.

Lemma eqb_refl_not_nan (x : float) :
  PrimFloat.is_nan x = false → (x =? x)%float = true.
Proof. unfold PrimFloat.is_nan. by destruct (x =? x)%float. Qed.

(** ** The builtin [max] and [list.index] *)

Lemma py_max_fold_in (r : list float) (x : float) :
  fold_left py_max_step r x ∈ x :: r.
Proof.
  revert x. induction r as [|y r IH]; intros x; [apply list_elem_of_here|].
  simpl. unfold py_max_step at 2. destruct (x <? y)%float.
  - apply list_elem_of_further, IH.
  - specialize (IH x). apply elem_of_cons in IH as [->|?].
    + apply list_elem_of_here.
    + by do 2 apply list_elem_of_further.
Qed.

Lemma index_from_first i v xs k :
  index_from i v xs = Some k →
  ∃ j x, k = i + j ∧ xs !! j = Some x ∧ (x =? v)%float = true ∧
         ∀ j' y, j' < j → xs !! j' = Some y → (y =? v)%float = false.
Proof.
  revert i. induction xs as [|y r IH]; intros i; simpl; [discriminate|].
  destruct (y =? v)%float eqn:E.
  - intros [= <-]. exists 0, y. split; [lia|]. split; [done|]. split; [done|].
    intros; lia.
  - intros H. destruct (IH _ H) as (j & x & -> & Hx & Hv & Hmin).
    exists (S j), x. split; [lia|]. split; [done|]. split; [done|].
    intros [|j'] y' Hlt Hy'; simpl in Hy'.
    + by injection Hy' as <-.
    + apply (Hmin j' y'); [lia|done].
Qed.

Lemma index_from_complete i v xs :
  v ∈ xs → (v =? v)%float = true → is_Some (index_from i v xs).
Proof.
  revert i. induction xs as [|y r IH]; intros i Hin Hv.
  - by apply elem_of_nil in Hin.
  - simpl. destruct (y =? v)%float eqn:E; [done|].
    apply elem_of_cons in Hin as [->|Hin]; [congruence|]. by apply IH.
Qed.

Lemma py_max_nan_free (trace : list float) (peak : float) :
  nan_free trace → py_max trace = Ok peak → PrimFloat.is_nan peak = false.
Proof.
  destruct trace as [|x r]; [discriminate|]. intros Hnf [= <-].
  pose proof (py_max_fold_in r x) as Hin.
  unfold nan_free in Hnf. rewrite Forall_forall in Hnf. by apply Hnf.
Qed.

(** Locating the peak as [fittingRange] does, on a trace without NaN. *)
Lemma peak_located (trace : list float) :
  trace ≠ [] → nan_free trace →
  ∃ peak ipeak x,
    py_max trace = Ok peak ∧ list_index trace peak = Ok ipeak ∧
    trace !! ipeak = Some x ∧ (x =? peak)%float = true ∧
    ∀ j y, j < ipeak → trace !! j = Some y → (y =? peak)%float = false.
Proof.
  intros Hne Hnf. destruct trace as [|x0 r]; [done|].
  set (peak := fold_left py_max_step r x0).
  assert (Hp : py_max (x0 :: r) = Ok peak) by done.
  pose proof (py_max_nan_free _ _ Hnf Hp) as Hnn.
  destruct (index_from_complete 0 peak (x0 :: r)) as [k Hk].
  { apply py_max_fold_in. }
  { by apply eqb_refl_not_nan. }
  destruct (index_from_first _ _ _ _ Hk) as (j & x & -> & Hx & Hv & Hmin).
  exists peak, j, x. split; [done|].
  split; [unfold list_index; by rewrite Hk|]. done.
Qed.

(** ** The fit window in full *)

Lemma fittingRange_TES_unfold (g : gmap string pyobj) (trace : list float)
    (cut peak : float) (ipeak : nat) :
  g !! "sensorType" = Some (PyStr "TES") →
  py_max trace = Ok peak → list_index trace peak = Ok ipeak →
  fittingRange g trace cut =
  (ilo ← last_le (take ipeak trace) (cut * peak)%float;
   j ← first_le (drop ipeak trace) (cut * peak)%float;
   Ok (ilo, ipeak + j)).
Proof.
  intros Hg Hp Hi. unfold fittingRange, load_name.
  rewrite Hp, bind_Ok_l, Hi, bind_Ok_l, Hg. reflexivity.
Qed.

(** X4: with the TES sensor selected and the peak located, the window is
    found exactly when some sample before the peak and some sample at or
    after the peak are at or below cut*peak; otherwise the call raises
    [IndexError].  A peak at index 0 therefore always raises. *)
Theorem fittingRange_TES_succeeds_iff (g : gmap string pyobj)
    (trace : list float) (cut peak : float) (ipeak : nat) :
  g !! "sensorType" = Some (PyStr "TES") →
  py_max trace = Ok peak → list_index trace peak = Ok ipeak →
  (is_ok (fittingRange g trace cut) = true ↔
   (∃ i x, i < ipeak ∧ trace !! i = Some x ∧ (x <=? cut * peak)%float = true) ∧
   (∃ i x, ipeak ≤ i ∧ trace !! i = Some x ∧
           (x <=? cut * peak)%float = true)) ∧
  (is_ok (fittingRange g trace cut) = false →
   fittingRange g trace cut = Raise IndexError) ∧
  (ipeak = 0 → fittingRange g trace cut = Raise IndexError).
Proof.
  intros Hg Hp Hi. rewrite (fittingRange_TES_unfold g trace cut peak ipeak) by done.
  assert (Hlo : ∀ e, last_le (take ipeak trace) (cut * peak)%float = Raise e →
                     e = IndexError) by (intros e; apply last_of_mask_raise).
  assert (Hhi : ∀ e, first_le (drop ipeak trace) (cut * peak)%float = Raise e →
                     e = IndexError) by (intros e; apply first_of_mask_raise).
  split; [|split].
  - split.
    + intros Hok. apply is_ok_true in Hok as [[s e] Hok].
      apply bind_Ok in Hok as (ilo & Hilo & Hok).
      apply bind_Ok in Hok as (j & Hj & _).
      apply last_of_mask in Hilo as [(x & Hx & Hxle) _].
      apply first_of_mask in Hj as [(y & Hy & Hyle) _].
      apply lookup_take_Some in Hx as [Hx ?]. rewrite lookup_drop in Hy.
      split; [by exists ilo, x | exists (ipeak + j), y]. split; [lia|done].
    + intros [(i & x & Hi' & Hx & Hxle) (i' & y & Hi'' & Hy & Hyle)].
      destruct (mask_search_some (λ v, (v <=? cut * peak)%float)
                  (take ipeak trace) i x) as [_ H1]; [|done|].
      { by apply lookup_take_Some. }
      destruct (mask_search_some (λ v, (v <=? cut * peak)%float)
                  (drop ipeak trace) (i' - ipeak) y) as [H2 _]; [|done|].
      { rewrite lookup_drop. by replace (ipeak + (i' - ipeak)) with i' by lia. }
      apply is_ok_true in H1 as [ilo H1]. apply is_ok_true in H2 as [j H2].
      unfold last_le, first_le, le_mask. by rewrite H1, bind_Ok_l, H2.
  - destruct (last_le (take ipeak trace) (cut * peak)%float) as [ilo|e] eqn:E1.
    + rewrite bind_Ok_l.
      destruct (first_le (drop ipeak trace) (cut * peak)%float) as [j|e] eqn:E2;
        [done|]. intros _. by rewrite (Hhi e).
    + intros _. by rewrite (Hlo e).
  - intros ->. reflexivity.
Qed.

Lemma fittingRange_TES_succeeds_iff_witness :
  (is_ok (fittingRange tes_globals clean_peak 0.2) = true ↔
   (∃ i x, i < 50 ∧ clean_peak !! i = Some x ∧ (x <=? 0.2 * 10)%float = true) ∧
   (∃ i x, 50 ≤ i ∧ clean_peak !! i = Some x ∧
           (x <=? 0.2 * 10)%float = true)) ∧
  (is_ok (fittingRange tes_globals clean_peak 0.2) = false →
   fittingRange tes_globals clean_peak 0.2 = Raise IndexError) ∧
  (50 = 0 → fittingRange tes_globals clean_peak 0.2 = Raise IndexError).
Proof.
  apply (fittingRange_TES_succeeds_iff tes_globals clean_peak 0.2 10 50);
    reflexivity.
Defined.

(** X5: a TES window is never empty and ends inside the trace:
    start < end < len(trace); so the two arrays handed to the solver have
    end - start > 0 samples each when bins is as long as trace. *)
Theorem fittingRange_TES_in_range (g : gmap string pyobj)
    (bins trace : list float) (cut : float) (s e : nat) :
  g !! "sensorType" = Some (PyStr "TES") →
  fittingRange g trace cut = Ok (s, e) →
  s < e < length trace ∧
  length (slice trace s e) = e - s ∧
  (length bins = length trace → length (slice bins s e) = e - s).
Proof.
  intros Hg H. unfold fittingRange, load_name in H.
  apply bind_Ok in H as (peak & Hpeak & H).
  apply bind_Ok in H as (ipeak & Hipeak & H).
  rewrite Hg, bind_Ok_l in H. cbn [String.eqb Ascii.eqb Bool.eqb] in H.
  apply bind_Ok in H as (ilo & Hlo & H).
  apply bind_Ok in H as (j & Hhi & H). injection H as <- <-.
  apply last_of_mask in Hlo as [(x & Hx & _) _].
  apply first_of_mask in Hhi as [(y & Hy & _) _].
  apply lookup_take_Some in Hx as [_ Hlt]. rewrite lookup_drop in Hy.
  apply lookup_lt_Some in Hy.
  split; [lia|]. unfold slice. rewrite !length_take, !length_drop.
  split; [lia|]. intros ->. lia.
Qed.

Lemma fittingRange_TES_in_range_witness :
  48 < 52 < length clean_peak ∧
  length (slice clean_peak 48 52) = 52 - 48 ∧
  (length (unit_bins 101) = length clean_peak →
   length (slice (unit_bins 101) 48 52) = 52 - 48).
Proof.
  apply (fittingRange_TES_in_range tes_globals (unit_bins 101) clean_peak 0.2);
    reflexivity.
Defined.

(** X6: with the FET sensor selected, every non-empty trace without NaN
    has a window: it starts just after the peak and is 2000 indices wide,
    whatever the cut and the length of the trace.  The windowed trace
    therefore never holds the peak sample, has min(2000, len - ipeak - 1)
    samples, and is empty when the peak is the last sample. *)
Theorem fittingRange_FET_window (g : gmap string pyobj) (trace : list float)
    (cut : float) :
  g !! "sensorType" = Some (PyStr "FET") → trace ≠ [] → nan_free trace →
  ∃ ipeak,
    np_argmax trace = Ok ipeak ∧ ipeak < length trace ∧
    fittingRange g trace cut = Ok (ipeak + 1, ipeak + 1 + 2000) ∧
    length (slice trace (ipeak + 1) (ipeak + 1 + 2000))
    = 2000 `min` (length trace - (ipeak + 1)) ∧
    (∀ i, slice trace (ipeak + 1) (ipeak + 1 + 2000) !! i
          = if decide (i < 2000) then trace !! (ipeak + 1 + i) else None) ∧
    (ipeak + 1 = length trace →
     slice trace (ipeak + 1) (ipeak + 1 + 2000) = []).
Proof.
  intros Hg Hne Hnf.
  destruct (peak_located trace Hne Hnf) as (peak & ip & x & Hp & Hi & _).
  destruct (np_argmax trace) as [ipeak|e] eqn:Harg;
    [|by destruct trace].
  exists ipeak. pose proof (np_argmax_lt _ _ Harg) as Hlt.
  split; [done|]. split; [done|]. split.
  { unfold fittingRange, load_name.
    rewrite Hp, bind_Ok_l, Hi, bind_Ok_l, Hg, bind_Ok_l.
    cbn [String.eqb Ascii.eqb Bool.eqb]. by rewrite Harg. }
  unfold slice. replace (ipeak + 1 + 2000 - (ipeak + 1)) with 2000 by lia.
  split; [by rewrite length_take, length_drop|]. split.
  - intros i. rewrite lookup_take. destruct (decide (i < 2000)); [|done].
    by rewrite lookup_drop.
  - intros Hlast. rewrite drop_ge by lia. by rewrite take_nil.
Qed.

Lemma fittingRange_FET_window_witness :
  ∃ ipeak,
    np_argmax fet_pulse = Ok ipeak ∧ ipeak < length fet_pulse ∧
    fittingRange fet_globals fet_pulse 0.2 = Ok (ipeak + 1, ipeak + 1 + 2000) ∧
    length (slice fet_pulse (ipeak + 1) (ipeak + 1 + 2000))
    = 2000 `min` (length fet_pulse - (ipeak + 1)) ∧
    (∀ i, slice fet_pulse (ipeak + 1) (ipeak + 1 + 2000) !! i
          = if decide (i < 2000) then fet_pulse !! (ipeak + 1 + i) else None) ∧
    (ipeak + 1 = length fet_pulse →
     slice fet_pulse (ipeak + 1) (ipeak + 1 + 2000) = []).
Proof.
  apply (fittingRange_FET_window fet_globals fet_pulse 0.2).
  - reflexivity.
  - discriminate.
  - repeat constructor.
Defined.

Lemma fittingRange_other_sensor (g : gmap string pyobj) (v : pyobj)
    (trace : list float) (cut : float) :
  g !! "sensorType" = Some v → v ≠ PyStr "TES" → v ≠ PyStr "FET" →
  trace ≠ [] → nan_free trace →
  fittingRange g trace cut = Ok (0, length trace).
Proof.
  intros Hg Htes Hfet Hne Hnf.
  destruct (peak_located trace Hne Hnf) as (peak & ip & x & Hp & Hi & _).
  unfold fittingRange, load_name.
  rewrite Hp, bind_Ok_l, Hi, bind_Ok_l, Hg, bind_Ok_l.
  destruct v as [| | s | | | |]; try done.
  destruct (String.eqb_spec s "TES") as [->|?]; [done|].
  by destruct (String.eqb_spec s "FET") as [->|?].
Qed.

(** X7: when [sensorType] is bound to anything but the strings "TES" and
    "FET" (it is [None] until [traceFit] runs), the window of a non-empty
    trace without NaN is the whole trace, and the solver would get bins and
    trace uncut. *)
Theorem fittingRange_default_window (g : gmap string pyobj) (v : pyobj)
    (bins trace : list float) (cut : float) :
  g !! "sensorType" = Some v → v ≠ PyStr "TES" → v ≠ PyStr "FET" →
  trace ≠ [] → nan_free trace →
  ∃ s e,
    fittingRange g trace cut = Ok (s, e) ∧ s = 0 ∧ e = length trace ∧
    slice trace s e = trace ∧
    (length bins = length trace → slice bins s e = bins).
Proof.
  intros Hg Htes Hfet Hne Hnf. exists 0, (length trace).
  split; [by eapply fittingRange_other_sensor|]. split; [done|]. split; [done|].
  unfold slice. rewrite Nat.sub_0_r, !drop_0. split; [by rewrite firstn_all|].
  intros <-. by rewrite firstn_all.
Qed.

Lemma fittingRange_default_window_witness :
  ∃ s e,
    fittingRange (module_init "") fet_pulse 0.2 = Ok (s, e) ∧
    s = 0 ∧ e = length fet_pulse ∧
    slice fet_pulse s e = fet_pulse ∧
    (length fet_bins = length fet_pulse → slice fet_bins s e = fet_bins).
Proof.
  apply (fittingRange_default_window (module_init "") PyNone fet_bins
           fet_pulse 0.2); try done.
  repeat constructor.
Defined.

(** X8: in a namespace the program can be in, [fittingRange] raises only
    [ValueError] or [IndexError]: [ValueError] only on an empty trace or one
    holding a NaN, [IndexError] only with the TES sensor selected. *)
Theorem fittingRange_errors (g : gmap string pyobj) (trace : list float)
    (cut : float) (e : PyExc) :
  reachable g → fittingRange g trace cut = Raise e →
  (e = ValueError ∧ (trace = [] ∨ ¬ nan_free trace)) ∨
  (e = IndexError ∧ g !! "sensorType" = Some (PyStr "TES")).
Proof.
  intros Hr H. unfold fittingRange in H.
  destruct (py_max trace) as [peak|e'] eqn:Hp.
  2:{ left. destruct trace; [|discriminate]. injection Hp as <-.
      injection H as <-. split; [done | by left]. }
  rewrite bind_Ok_l in H.
  destruct (list_index trace peak) as [ipeak|e'] eqn:Hi.
  2:{ left. unfold list_index in Hi.
      destruct (index_from 0 peak trace) eqn:Hidx; [discriminate|].
      injection Hi as <-. injection H as <-. split; [done|]. right.
      intros Hnf. destruct (peak_located trace) as (p & i & _ & Hp' & Hi' & _);
        [by destruct trace | done |].
      rewrite Hp in Hp'. injection Hp' as <-.
      unfold list_index in Hi'. by rewrite Hidx in Hi'. }
  rewrite bind_Ok_l in H. unfold load_name in H.
  destruct (reachable_sensorType g Hr) as [Hs|[s Hs]]; rewrite Hs in H;
    [discriminate|]. rewrite bind_Ok_l in H.
  destruct (String.eqb s "TES") eqn:E1.
  - apply String.eqb_eq in E1 as ->. right. split; [|done].
    destruct (last_le (take ipeak trace) (cut * peak)%float) as [ilo|e'] eqn:E2.
    + rewrite bind_Ok_l in H.
      destruct (first_le (drop ipeak trace) (cut * peak)%float) as [j|e''] eqn:E3;
        [discriminate|]. injection H as <-. by apply first_of_mask_raise in E3.
    + injection H as <-. by apply last_of_mask_raise in E2.
  - destruct (String.eqb s "FET"); [|discriminate].
    destruct (np_argmax trace) eqn:E2; [discriminate|].
    destruct trace; discriminate.
Qed.

Lemma fittingRange_errors_witness :
  (IndexError = ValueError ∧
   (replicate 4 0%float = [] ∨ ¬ nan_free (replicate 4 0%float))) ∨
  (IndexError = IndexError ∧
   tes_globals !! "sensorType" = Some (PyStr "TES")).
Proof.
  apply (fittingRange_errors tes_globals (replicate 4 0%float) 0.2 IndexError).
  - exact tes_globals_reachable.
  - reflexivity.
Defined.

(** ** The guesses: what can go wrong, and when nothing does *)

Lemma bind_Raise {A B} (m : result A) (f : A → result B) (e : PyExc) :
  m ≫= f = Raise e → m = Raise e ∨ ∃ a, m = Ok a ∧ f a = Raise e.
Proof. destruct m as [a|e']; [eauto|]. intros [= ->]. by left. Qed.

Lemma np_max_Raise xs e : np_max xs = Raise e → e = ValueError ∧ xs = [].
Proof. destruct xs; [by intros [= <-] | discriminate]. Qed.

Lemma np_argmax_Raise xs e : np_argmax xs = Raise e → e = ValueError ∧ xs = [].
Proof. destruct xs; [by intros [= <-] | discriminate]. Qed.

Lemma np_min_Raise xs e : np_min xs = Raise e → e = ValueError ∧ xs = [].
Proof. destruct xs; [by intros [= <-] | discriminate]. Qed.

Lemma np_argmin_Raise xs e : np_argmin xs = Raise e → e = ValueError ∧ xs = [].
Proof. destruct xs; [by intros [= <-] | discriminate]. Qed.

Lemma np_argmax_sample xs m k :
  np_max xs = Ok m → np_argmax xs = Ok k → xs !! k = Some m.
Proof.
  destruct xs as [|x r]; [discriminate|]. intros [= <-] [= <-].
  destruct (argmax_scan_max r x 0 1) as [[-> ->]|(j & -> & Hj)]; done.
Qed.

Lemma decay_guess_Raise bins trace peak ipeak e :
  decay_guess bins trace peak ipeak = Raise e → e = IndexError.
Proof.
  unfold decay_guess. intros H.
  apply bind_Raise in H as [H|(dhi & _ & H)]; [by apply last_of_mask_raise in H|].
  apply bind_Raise in H as [H|(b & _ & H)]; [by apply getitem_Raise in H|].
  apply bind_Raise in H as [H|(b0 & _ & H)]; [by apply getitem_Raise in H|].
  discriminate.
Qed.

Lemma recovery_raw_Raise bins trace tmin imin e :
  imin < length trace →
  recovery_raw bins trace tmin imin = Raise e → e = IndexError.
Proof.
  unfold recovery_raw. intros Hlt H.
  apply bind_Raise in H as [H|(tlast & _ & H)].
  { apply np_max_Raise in H as [_ H]. apply (f_equal length) in H.
    rewrite length_drop in H. simpl in H. lia. }
  apply bind_Raise in H as [H|(rlo & _ & H)]; [by apply first_of_mask_raise in H|].
  apply bind_Raise in H as [H|(rhi & _ & H)]; [by apply first_of_mask_raise in H|].
  apply bind_Raise in H as [H|(b & _ & H)]; [by apply getitem_Raise in H|].
  apply bind_Raise in H as [H|(b0 & _ & H)]; [by apply getitem_Raise in H|].
  discriminate.
Qed.

(** X9: the two guess functions raise only a few exceptions.  [guessFET]
    raises [ValueError] only on an empty trace and otherwise [IndexError];
    [guessTES], in a namespace the program can be in, raises [ValueError]
    only on an empty trace and otherwise [IndexError] or the [NameError]
    for [pulseShape]. *)
Theorem guess_errors (ext : Externals) (g : gmap string pyobj)
    (bins trace : list float) :
  (∀ e, guessFET g bins trace = Raise e →
        (e = ValueError ∧ trace = []) ∨ e = IndexError) ∧
  (reachable g →
   ∀ e, guessTES ext g bins trace = Raise e →
        (e = ValueError ∧ trace = []) ∨ e = IndexError ∨
        e = NameError "pulseShape").
Proof.
  split.
  - intros e H. unfold guessFET in H. cbv zeta in H.
    apply bind_Raise in H as [H|(peak & _ & H)];
      [left; by apply np_max_Raise in H|].
    apply bind_Raise in H as [H|(ipeak & _ & H)];
      [left; by apply np_argmax_Raise in H|].
    apply bind_Raise in H as [H|(b & _ & H)];
      [right; by apply getitem_Raise in H|].
    apply bind_Raise in H as [H|(i0 & _ & H)];
      [right; by apply first_of_mask_raise in H|].
    apply bind_Raise in H as [H|(d & _ & H)];
      [right; by apply decay_guess_Raise in H|].
    apply bind_Raise in H as [H|(tmin & _ & H)];
      [left; by apply np_min_Raise in H|].
    apply bind_Raise in H as [H|(imin & Himin & H)];
      [left; by apply np_argmin_Raise in H|].
    apply bind_Raise in H as [H|(b' & _ & H)];
      [right; by apply getitem_Raise in H|].
    apply bind_Raise in H as [H|(r & _ & H)]; [|discriminate].
    right. destruct (tmin <? 0)%float; [|discriminate].
    apply bind_Raise in H as [H|(raw & _ & H)]; [|discriminate].
    apply recovery_raw_Raise in H; [done|]. by apply np_argmin_lt.
  - intros Hr e H. unfold guessTES in H. cbv zeta in H.
    apply bind_Raise in H as [H|(peak & _ & H)];
      [left; by apply np_max_Raise in H|].
    apply bind_Raise in H as [H|(ipeak & _ & H)];
      [left; by apply np_argmax_Raise in H|].
    right.
    apply bind_Raise in H as [H|(b & _ & H)];
      [left; by apply getitem_Raise in H|].
    apply bind_Raise in H as [H|(rlo & _ & H)];
      [left; by apply last_of_mask_raise in H|].
    apply bind_Raise in H as [H|(rhi & _ & H)];
      [left; by apply last_of_mask_raise in H|].
    apply bind_Raise in H as [H|(b1 & _ & H)];
      [left; by apply getitem_Raise in H|].
    apply bind_Raise in H as [H|(b2 & _ & H)];
      [left; by apply getitem_Raise in H|].
    apply bind_Raise in H as [H|(flo & _ & H)];
      [left; by apply first_of_mask_raise in H|].
    apply bind_Raise in H as [H|(fhi & _ & H)];
      [left; by apply first_of_mask_raise in H|].
    apply bind_Raise in H as [H|(b3 & _ & H)];
      [left; by apply getitem_Raise in H|].
    apply bind_Raise in H as [H|(b4 & _ & H)];
      [left; by apply getitem_Raise in H|].
    apply bind_Raise in H as [H|(b5 & _ & H)];
      [left; by apply getitem_Raise in H|].
    apply bind_Raise in H as [H|(shape & Hshape & H)].
    + right. unfold load_name in H.
      rewrite (reachable_unbound g "pulseShape" Hr) in H by set_solver.
      by injection H as <-.
    + exfalso. unfold load_name in Hshape.
      rewrite (reachable_unbound g "pulseShape" Hr) in Hshape by set_solver.
      discriminate.
Qed.

(** X10: a FET trace without undershoot always gets a guess.  If bins is
    as long as the non-empty trace, some bin is at or after t = 0, the peak
    is at or above peak/(2e) and the minimum is not below zero, [guessFET]
    returns, with recovery rate 0 and scale peak/(decay - 0). *)
Theorem guessFET_no_undershoot (g : gmap string pyobj)
    (bins trace : list float) (peak tmin : float) :
  length bins = length trace →
  np_max trace = Ok peak → np_min trace = Ok tmin →
  (∃ j b, bins !! j = Some b ∧ (0 <=? b)%float = true) →
  (peak / (2 * np_e) <=? peak)%float = true →
  (tmin <? 0)%float = false →
  ∃ ipeak i0 decay,
    np_argmax trace = Ok ipeak ∧ first_ge bins 0 = Ok i0 ∧
    decay_guess bins trace peak ipeak = Ok decay ∧
    guessFET g bins trace
    = Ok ((peak / (decay - 0))%float, decay, 0%float,
          float_of_Z (Z.of_nat ipeak - Z.of_nat (i0 + 1))).
Proof.
  intros Hlen Hmax Hmin (j & b & Hb & Hb0) Hthr Hpos.
  destruct (np_argmax trace) as [ipeak|e] eqn:Harg;
    [|destruct trace; discriminate].
  pose proof (np_argmax_lt _ _ Harg) as Hip.
  pose proof (np_argmax_sample _ _ _ Hmax Harg) as Hsample.
  destruct (np_argmin trace) as [imin|e] eqn:Hargmin;
    [|destruct trace; discriminate].
  pose proof (np_argmin_lt _ _ Hargmin) as Himin.
  destruct (mask_search_some (λ v, (0 <=? v)%float) bins j b Hb Hb0)
    as [Hi0 _].
  apply is_ok_true in Hi0 as [i0 Hi0].
  destruct (mask_search_some (λ v, (peak / (2 * np_e) <=? v)%float)
              (drop ipeak trace) 0 peak) as [_ Hd]; [|done|].
  { by rewrite lookup_drop, Nat.add_0_r. }
  apply is_ok_true in Hd as [dhi Hd].
  assert (Hdhi : dhi < length bins).
  { apply last_of_mask in Hd as [(x & Hx & _) _].
    rewrite lookup_drop in Hx. apply lookup_lt_Some in Hx. lia. }
  destruct (getitem_lt bins ipeak) as (b_peak & Hb_peak & _); [lia|].
  destruct (getitem_lt bins imin) as (b_min & Hb_min & _); [lia|].
  destruct (getitem_lt bins dhi Hdhi) as (b_dhi & Hb_dhi & _).
  destruct (getitem_lt bins 0) as (b_0 & Hb_0 & _); [lia|].
  assert (Hdecay : decay_guess bins trace peak ipeak
                   = Ok (2 / (b_dhi - b_0))%float).
  { unfold decay_guess, last_ge, ge_mask.
    by rewrite Hd, bind_Ok_l, Hb_dhi, bind_Ok_l, Hb_0. }
  exists ipeak, i0, (2 / (b_dhi - b_0))%float.
  split; [done|]. split; [done|]. split; [done|].
  unfold guessFET. rewrite Hmax, bind_Ok_l, Harg, bind_Ok_l, Hb_peak, bind_Ok_l.
  unfold first_ge, ge_mask. rewrite Hi0, bind_Ok_l. cbv zeta.
  rewrite Hdecay, bind_Ok_l, Hmin, bind_Ok_l, Hargmin, bind_Ok_l.
  rewrite Hb_min, bind_Ok_l, Hpos. reflexivity.
Qed.

Lemma guessFET_no_undershoot_witness :
  ∃ ipeak i0 decay,
    np_argmax fet_pulse = Ok ipeak ∧ first_ge fet_bins 0 = Ok i0 ∧
    decay_guess fet_bins fet_pulse 10 ipeak = Ok decay ∧
    guessFET fet_globals fet_bins fet_pulse
    = Ok ((10 / (decay - 0))%float, decay, 0%float,
          float_of_Z (Z.of_nat ipeak - Z.of_nat (i0 + 1))).
Proof.
  apply (guessFET_no_undershoot fet_globals fet_bins fet_pulse 10 0);
    try reflexivity.
  exists 0, 0%float. split; reflexivity.
Defined.

(** X11: what a successful [guessFET] returns.  The scale is
    peak/(decay - recovery); the offset is the peak index minus one more
    than the index of the first bin at or after t = 0, a count of bins; and
    the recovery rate is either 0 or not below 0.1*decay, and is 0 whenever
    the minimum of the trace is not below zero. *)
Theorem guessFET_result (g : gmap string pyobj) (bins trace : list float)
    (scale decay recovery offset : float) :
  guessFET g bins trace = Ok (scale, decay, recovery, offset) →
  ∃ peak ipeak i0 tmin,
    np_max trace = Ok peak ∧ np_argmax trace = Ok ipeak ∧
    first_ge bins 0 = Ok i0 ∧ np_min trace = Ok tmin ∧
    scale = (peak / (decay - recovery))%float ∧
    offset = float_of_Z (Z.of_nat ipeak - Z.of_nat (i0 + 1)) ∧
    (recovery = 0%float ∨ (recovery <? 0.1 * decay)%float = false) ∧
    ((tmin <? 0)%float = false → recovery = 0%float).
Proof.
  intros H.
  apply guessFET_Ok in H
    as (peak & ipeak & i0 & d & tmin & imin & r & Hpeak & Hipeak & Hi0 & _
        & Htmin & _ & Hr & Hp).
  injection Hp as -> -> -> ->.
  exists peak, ipeak, i0, tmin.
  split; [done|]. split; [done|]. split; [done|]. split; [done|].
  split; [done|]. split; [done|].
  destruct (tmin <? 0)%float.
  - apply bind_Ok in Hr as (raw & _ & Hr). injection Hr as <-.
    split; [|done]. destruct (raw <? 0.1 * d)%float eqn:E; [by left|by right].
  - injection Hr as <-. split; [by left|done].
Qed.

Lemma guessFET_result_witness :
  ∃ peak ipeak i0 tmin,
    np_max undershoot = Ok peak ∧ np_argmax undershoot = Ok ipeak ∧
    first_ge (unit_bins 46) 0 = Ok i0 ∧ np_min undershoot = Ok tmin ∧
    10%float = (peak / (1 - 0))%float ∧
    (-1)%float = float_of_Z (Z.of_nat ipeak - Z.of_nat (i0 + 1)) ∧
    (0%float = 0%float ∨ (0 <? 0.1 * 1)%float = false) ∧
    ((tmin <? 0)%float = false → 0%float = 0%float).
Proof.
  apply (guessFET_result fet_globals (unit_bins 46) undershoot 10 1 0 (-1)).
  reflexivity.
Defined.

(** X12: [guessFET] needs a bin at or after t = 0: on a non-empty trace
    with enough bins, all of them before 0, it raises [IndexError]. *)
Theorem guessFET_negative_axis (g : gmap string pyobj)
    (bins trace : list float) :
  trace ≠ [] → length trace ≤ length bins →
  (∀ j b, bins !! j = Some b → (0 <=? b)%float = false) →
  guessFET g bins trace = Raise IndexError.
Proof.
  intros Hne Hlen Hneg. destruct trace as [|x r]; [done|].
  unfold guessFET. cbn [np_max np_argmax]. rewrite !bind_Ok_l.
  pose proof (argmax_scan_lt x 0 1 r) as Hlt.
  destruct (getitem_lt bins (argmax_scan x 0 1 r)) as (b & -> & _).
  { simpl in Hlen. lia. }
  rewrite bind_Ok_l.
  destruct (mask_search_none (λ v, (0 <=? v)%float) bins Hneg) as [Hnone _].
  unfold first_ge, ge_mask. by rewrite Hnone.
Qed.

Lemma guessFET_negative_axis_witness :
  guessFET fet_globals [-3; -2; -1]%float [1; 5; 2]%float = Raise IndexError.
Proof.
  apply guessFET_negative_axis.
  - discriminate.
  - simpl. lia.
  - intros [|[|[|j]]] b; simpl; intros [= <-] || intros [=]; reflexivity.
Defined.

(** X13: [guessTES] has no rising side to search when the first sample is
    the maximum, and raises [IndexError]. *)
Theorem guessTES_peak_first (ext : Externals) (g : gmap string pyobj)
    (bins trace : list float) :
  np_argmax trace = Ok 0 → guessTES ext g bins trace = Raise IndexError.
Proof.
  intros Harg. destruct trace as [|x r]; [discriminate|].
  unfold guessTES. rewrite Harg. cbn [np_max]. rewrite !bind_Ok_l.
  destruct (getitem bins 0) as [b|e] eqn:E; [reflexivity|].
  by apply getitem_Raise in E as ->.
Qed.

Lemma guessTES_peak_first_witness :
  guessTES echo_externals tes_globals (unit_bins 3) [9; 5; 2]%float
  = Raise IndexError.
Proof. apply guessTES_peak_first. reflexivity. Defined.

(** ** The command line *)

Lemma reachable_true_unbound (g : gmap string pyobj) :
  reachable g → g !! "true" = None.
Proof.
  induction 1 as [env|g vb _ IH|g s _ IH]; [done|..].
  - unfold setVerbose. by rewrite lookup_insert_ne.
  - by rewrite lookup_insert_ne.
Qed.

Lemma last_arg_cons (o o' a : string) (opts : list (string * string)) :
  last_arg o ((o', a) :: opts)
  = match last_arg o opts with
    | Some x => Some x
    | None => if decide (o' = o) then Some a else None
    end.
Proof.
  unfold last_arg. rewrite filter_cons. simpl.
  destruct (decide (o' = o)).
  - rewrite fmap_cons, last_cons. done.
  - by destruct (last _).
Qed.

Lemma last_arg_absent (o : string) (opts : list (string * string)) :
  (∀ a, (o, a) ∉ opts) → last_arg o opts = None.
Proof.
  induction opts as [|[o' a] opts IH]; intros Hno; [done|].
  rewrite last_arg_cons, IH.
  - destruct (decide (o' = o)) as [->|]; [|done].
    exfalso. apply (Hno a), list_elem_of_here.
  - intros a' Hin. apply (Hno a'). by apply list_elem_of_further.
Qed.

Ltac case_option :=
  match goal with
  | |- context [String.eqb ?o ?s] =>
      destruct (String.eqb_spec o s) as [->|?]
  | H : context [String.eqb ?o ?s] |- _ =>
      destruct (String.eqb_spec o s) as [->|?]
  end.

(** The namespace the loop leaves behind, in a reachable namespace. *)
Lemma getargs_loop_namespace (cl : CommandLine) (opts : list (string * string))
    (g : gmap string pyobj) (s : Settings) :
  g !! "true" = None → fst (getargs_loop cl opts g s) = g.
Proof.
  intros Hg. revert s. induction opts as [|[o a] opts IH]; intros s; [done|].
  simpl. repeat case_option; try apply IH; try done.
  - by destruct (py_int cl a).
  - by destruct (py_int cl a).
  - unfold load_name. by rewrite Hg.
Qed.

Lemma getargs_loop_ok (cl : CommandLine) (opts : list (string * string))
    (g : gmap string pyobj) (s : Settings) :
  g !! "true" = None →
  (is_ok (snd (getargs_loop cl opts g s)) = true ↔ Forall (option_ok cl) opts).
Proof.
  intros Hg. revert s. induction opts as [|[o a] opts IH]; intros s.
  { split; [by constructor | done]. }
  rewrite Forall_cons. unfold option_ok at 1. simpl.
  assert (Hpass : ∀ s', (o ≠ "-h" ∧ o ≠ "-v" ∧
                          (o = "-c" ∨ o = "-e" → is_Some (py_int cl a))) →
            (is_ok (snd (getargs_loop cl opts g s')) = true ↔
             (o ≠ "-h" ∧ o ≠ "-v" ∧
              (o = "-c" ∨ o = "-e" → is_Some (py_int cl a))) ∧
             Forall (option_ok cl) opts)).
  { intros s' Ho. rewrite IH. split; [by intros ?|by intros [_ ?]]. }
  assert (Hstop : ∀ e : PyExc,
            ¬ (o ≠ "-h" ∧ o ≠ "-v" ∧
               (o = "-c" ∨ o = "-e" → is_Some (py_int cl a))) →
            (is_ok (snd (g, Raise e : result Settings)) = true ↔
             (o ≠ "-h" ∧ o ≠ "-v" ∧
              (o = "-c" ∨ o = "-e" → is_Some (py_int cl a))) ∧
             Forall (option_ok cl) opts)).
  { intros e Ho. split; [done|]. by intros [? _]. }
  repeat case_option.
  - destruct (py_int cl a) as [parsed|] eqn:Hint.
    + apply Hpass. split; [done|]. split; [done|]. by intros _.
    + apply Hstop. intros (_ & _ & Hi). destruct Hi as [? Hi]; [by left|done].
  - apply Hpass. split; [done|]. split; [done|]. by intros [?|?].
  - destruct (py_int cl a) as [parsed|] eqn:Hint.
    + apply Hpass. split; [done|]. split; [done|]. by intros _.
    + apply Hstop. intros (_ & _ & Hi). destruct Hi as [? Hi]; [by right|done].
  - apply Hstop. by intros (? & _).
  - apply Hpass. split; [done|]. split; [done|]. by intros [?|?].
  - apply Hpass. split; [done|]. split; [done|]. by intros [?|?].
  - unfold load_name. rewrite Hg. apply Hstop. by intros (_ & ? & _).
  - apply Hpass. split; [done|]. split; [done|]. by intros [?|?].
Qed.

Lemma getargs_loop_settings (cl : CommandLine) (opts : list (string * string))
    (g : gmap string pyobj) (s s' : Settings) :
  snd (getargs_loop cl opts g s) = Ok s' →
  opt_file s' = opt_file s ∧
  opt_detname s' = default (opt_detname s) (last_arg "-d" opts) ∧
  opt_sensor s' = default (opt_sensor s) (last_arg "-s" opts) ∧
  opt_doplot s'
  = match last_arg "-p" opts with Some _ => true | None => opt_doplot s end ∧
  Some (opt_channel s')
  = match last_arg "-c" opts with
    | Some a => py_int cl a
    | None => Some (opt_channel s)
    end ∧
  Some (opt_event s')
  = match last_arg "-e" opts with
    | Some a => py_int cl a
    | None => Some (opt_event s)
    end.
Proof.
  revert g s. induction opts as [|[o a] opts IH]; intros g s.
  { simpl. by intros [= ->]. }
  simpl. rewrite !last_arg_cons.
  repeat case_option;
    try destruct (py_int cl a) as [parsed|] eqn:Hint;
    try destruct (load_name g "true") as [vb|];
    try discriminate;
    intros H; apply IH in H as (Hf & Hd & Hs & Hp & Hc & He);
    simpl in *; rewrite Hf, Hd, Hs, Hp, Hc, He;
    destruct (last_arg "-d" opts), (last_arg "-s" opts),
      (last_arg "-p" opts), (last_arg "-c" opts), (last_arg "-e" opts);
    repeat case_decide; simplify_eq; done.
Qed.

Lemma getargs_loop_raise (cl : CommandLine) (opts : list (string * string))
    (g : gmap string pyobj) (s : Settings) (e : PyExc) :
  g !! "true" = None →
  snd (getargs_loop cl opts g s) = Raise e →
  (e = SystemExit 0 ∧ ∃ a, ("-h", a) ∈ opts) ∨
  (e = NameError "true" ∧ ∃ a, ("-v", a) ∈ opts) ∨
  (e = ValueError ∧
   ∃ o a, (o, a) ∈ opts ∧ (o = "-c" ∨ o = "-e") ∧ py_int cl a = None).
Proof.
  intros Hg. revert s. induction opts as [|[o a] opts IH]; intros s; [done|].
  assert (Hrest : ∀ s', snd (getargs_loop cl opts g s') = Raise e →
    (e = SystemExit 0 ∧ ∃ a', ("-h", a') ∈ (o, a) :: opts) ∨
    (e = NameError "true" ∧ ∃ a', ("-v", a') ∈ (o, a) :: opts) ∨
    (e = ValueError ∧
     ∃ o' a', (o', a') ∈ (o, a) :: opts ∧ (o' = "-c" ∨ o' = "-e") ∧
              py_int cl a' = None)).
  { intros s' H. destruct (IH s' H) as [(-> & a' & Hin)|[(-> & a' & Hin)|
      (-> & o' & a' & Hin & Ho & Hi)]].
    - left. split; [done|]. exists a'. by apply list_elem_of_further.
    - right. left. split; [done|]. exists a'. by apply list_elem_of_further.
    - right. right. split; [done|]. exists o', a'.
      split; [by apply list_elem_of_further|done]. }
  simpl. repeat case_option; try apply Hrest.
  - destruct (py_int cl a) as [parsed|] eqn:Hint; [apply Hrest|].
    intros [= <-]. right. right. split; [done|]. exists "-c", a.
    split; [apply list_elem_of_here|]. split; [by left|done].
  - destruct (py_int cl a) as [parsed|] eqn:Hint; [apply Hrest|].
    intros [= <-]. right. right. split; [done|]. exists "-e", a.
    split; [apply list_elem_of_here|]. split; [by right|done].
  - intros [= <-]. left. split; [done|]. exists a. apply list_elem_of_here.
  - unfold load_name. rewrite Hg. intros [= <-]. right. left.
    split; [done|]. exists a. apply list_elem_of_here.
Qed.

Lemma getargs_namespace (cl : CommandLine) (g : gmap string pyobj)
    (argv : list string) :
  g !! "true" = None → fst (getargs cl g argv) = g.
Proof.
  intros Hg. unfold getargs.
  destruct (getopt cl (drop 1 argv) "c:d:e:hpv") as [[opts [|file rest]]|];
    [done| |done].
  by apply getargs_loop_namespace.
Qed.

(** X18: in a namespace the program can be in, [getargs] returns settings
    exactly when [getopt] accepts the words, a file name is left over, no
    [-h] and no [-v] is among the options and every [-c] and [-e] argument
    is an integer; and it leaves the namespace as it was, so [verbose] is
    never switched on from the command line. *)
Theorem getargs_succeeds_iff (cl : CommandLine) (g : gmap string pyobj)
    (argv : list string) :
  reachable g →
  (is_ok (snd (getargs cl g argv)) = true ↔
   ∃ opts file rest,
     getopt cl (drop 1 argv) "c:d:e:hpv" = Some (opts, file :: rest) ∧
     Forall (option_ok cl) opts) ∧
  fst (getargs cl g argv) = g.
Proof.
  intros Hr. pose proof (reachable_true_unbound g Hr) as Hg.
  unfold getargs.
  destruct (getopt cl (drop 1 argv) "c:d:e:hpv") as [[opts [|file rest]]|].
  - split; [|done]. split; [done|]. by intros (? & ? & ? & [=] & _).
  - split; [|by apply getargs_loop_namespace].
    rewrite getargs_loop_ok by done. split.
    + intros H. by exists opts, file, rest.
    + by intros (? & ? & ? & [= -> -> ->] & H).
  - split; [|done]. split; [done|]. by intros (? & ? & ? & [=] & _).
Qed.

Lemma getargs_succeeds_iff_witness :
  (is_ok (snd (getargs tiny_cli (module_init "") ["prog"; "-p"; "f.root"]))
   = true ↔
   ∃ opts file rest,
     getopt tiny_cli (drop 1 ["prog"; "-p"; "f.root"]) "c:d:e:hpv"
     = Some (opts, file :: rest) ∧
     Forall (option_ok tiny_cli) opts) ∧
  fst (getargs tiny_cli (module_init "") ["prog"; "-p"; "f.root"])
  = module_init "".
Proof. apply getargs_succeeds_iff. apply reach_init. Defined.

(** X19: when [getargs] raises in a namespace the program can be in, it
    is [SystemExit(2)] for words [getopt] rejects or a missing file name,
    [SystemExit(0)] for [-h], [NameError] for the name [true] when [-v] is
    given, or [ValueError] for a [-c] or [-e] argument that is no integer. *)
Theorem getargs_failures (cl : CommandLine) (g : gmap string pyobj)
    (argv : list string) (e : PyExc) :
  reachable g → snd (getargs cl g argv) = Raise e →
  (e = SystemExit 2 ∧
   (getopt cl (drop 1 argv) "c:d:e:hpv" = None ∨
    ∃ opts, getopt cl (drop 1 argv) "c:d:e:hpv" = Some (opts, []))) ∨
  (∃ opts args,
     getopt cl (drop 1 argv) "c:d:e:hpv" = Some (opts, args) ∧
     ((e = SystemExit 0 ∧ ∃ a, ("-h", a) ∈ opts) ∨
      (e = NameError "true" ∧ ∃ a, ("-v", a) ∈ opts) ∨
      (e = ValueError ∧
       ∃ o a, (o, a) ∈ opts ∧ (o = "-c" ∨ o = "-e") ∧ py_int cl a = None))).
Proof.
  intros Hr. pose proof (reachable_true_unbound g Hr) as Hg.
  unfold getargs.
  destruct (getopt cl (drop 1 argv) "c:d:e:hpv") as [[opts [|file rest]]|].
  - intros [= <-]. left. split; [done|]. right. by exists opts.
  - intros H. right. exists opts, (file :: rest). split; [done|].
    by eapply getargs_loop_raise.
  - intros [= <-]. left. split; [done|]. by left.
Qed.

Lemma getargs_failures_witness :
  (SystemExit 2 = SystemExit 2 ∧
   (getopt tiny_cli (drop 1 ["prog"]) "c:d:e:hpv" = None ∨
    ∃ opts, getopt tiny_cli (drop 1 ["prog"]) "c:d:e:hpv" = Some (opts, []))) ∨
  (∃ opts args,
     getopt tiny_cli (drop 1 ["prog"]) "c:d:e:hpv" = Some (opts, args) ∧
     ((SystemExit 2 = SystemExit 0 ∧ ∃ a, ("-h", a) ∈ opts) ∨
      (SystemExit 2 = NameError "true" ∧ ∃ a, ("-v", a) ∈ opts) ∨
      (SystemExit 2 = ValueError ∧
       ∃ o a, (o, a) ∈ opts ∧ (o = "-c" ∨ o = "-e") ∧
              py_int tiny_cli a = None))).
Proof.
  apply (getargs_failures tiny_cli (module_init "") ["prog"] (SystemExit 2)).
  - apply reach_init.
  - reflexivity.
Defined.

(** X20: the settings [getargs] returns: the file is the first word left
    over by [getopt]; detector name and sensor are the argument of the last
    [-d] and [-s], else "" and "TES"; event and channel are the integers of
    the last [-e] and [-c], else 0; and [doplot] tells whether [-p] was
    given. *)
Theorem getargs_settings (cl : CommandLine) (g : gmap string pyobj)
    (argv : list string) (s : Settings) :
  snd (getargs cl g argv) = Ok s →
  ∃ opts file rest,
    getopt cl (drop 1 argv) "c:d:e:hpv" = Some (opts, file :: rest) ∧
    opt_file s = file ∧
    opt_detname s = default ""%string (last_arg "-d" opts) ∧
    opt_sensor s = default "TES"%string (last_arg "-s" opts) ∧
    opt_doplot s
    = match last_arg "-p" opts with Some _ => true | None => false end ∧
    Some (opt_channel s)
    = match last_arg "-c" opts with
      | Some a => py_int cl a
      | None => Some 0%Z
      end ∧
    Some (opt_event s)
    = match last_arg "-e" opts with
      | Some a => py_int cl a
      | None => Some 0%Z
      end.
Proof.
  unfold getargs.
  destruct (getopt cl (drop 1 argv) "c:d:e:hpv") as [[opts [|file rest]]|];
    [discriminate| |discriminate].
  intros H. exists opts, file, rest. split; [done|].
  by apply getargs_loop_settings in H.
Qed.

Lemma getargs_settings_witness :
  ∃ opts file rest,
    getopt tiny_cli (drop 1 ["prog"; "-p"; "f.root"]) "c:d:e:hpv"
    = Some (opts, file :: rest) ∧
    "f.root"%string = file ∧
    ""%string = default ""%string (last_arg "-d" opts) ∧
    "TES"%string = default "TES"%string (last_arg "-s" opts) ∧
    true = match last_arg "-p" opts with Some _ => true | None => false end ∧
    Some 0%Z
    = match last_arg "-c" opts with
      | Some a => py_int tiny_cli a
      | None => Some 0%Z
      end ∧
    Some 0%Z
    = match last_arg "-e" opts with
      | Some a => py_int tiny_cli a
      | None => Some 0%Z
      end.
Proof.
  apply (getargs_settings tiny_cli (module_init "") ["prog"; "-p"; "f.root"]
           (mkSettings "f.root" "" 0 0 "TES" true)).
  reflexivity.
Defined.

(** ** The drivers and the program as a whole *)

Lemma traceFit_TES_aborts (ext : Externals) (g : gmap string pyobj)
    (file detname : string) (evno channel : Z) (doplot : bool) :
  g !! "pulseShape" = None →
  is_ok (outcome (traceFit_TES ext g file detname evno channel doplot)) = false ∧
  ∀ ev, ev ∈ calls (traceFit_TES ext g file detname evno channel doplot) →
        ev = EvTraceFitting (PyFunc "TESshape") true.
Proof.
  intros Hg. split.
  - unfold traceFit_TES. rewrite lift_bind.
    destruct (getTES ext file evno channel) as [[[[bins trace] I0] E]|x];
      [|done].
    rewrite lift_bind. destruct (py_max trace) as [m|x]; [|done].
    rewrite outcome_bind.
    match goal with
    | |- context [match @outcome ?A ?t with _ => _ end] =>
        pose proof (proj1 (trace_fitting_TES_aborts ext g bins trace
                             (PyFunc "TESshape") true Hg)
                    : is_ok (@outcome A t) = false) as Hno;
        destruct (@outcome A t); [discriminate|done]
    end.
  - intros ev (bins & trace & Hin)%traceFit_TES_calls.
    pose proof Hin as Hin'.
    apply trace_fitting_calls in Hin as [->|(s & e & p0 & b & _ & _ & _ & ->)];
      [done|].
    exfalso. by eapply trace_fitting_TES_aborts.
Qed.

(** The TES fit records its entry and nothing else. *)
Lemma trace_fitting_TES_calls (ext : Externals) (g : gmap string pyobj)
    (bins trace : list float) (shape : pyobj) (db : bool) :
  g !! "pulseShape" = None →
  calls (trace_fitting ext g bins trace shape (Some (guessTES ext)) db)
  = [EvTraceFitting shape db].
Proof.
  intros Hg. pose proof (guessTES_not_Ok ext g bins trace Hg) as Hno.
  rewrite trace_fitting_run. unfold initial_guess.
  destruct (fittingRange g trace 0.2) as [[s e]|x]; [|done].
  by destruct (guessTES ext g bins trace) as [p|x]; [discriminate|].
Qed.

(** C8: both drivers pass their bounds flag as the claim says, but only
    the FET half of the claim is what the code does.  In every namespace
    the program can be in, the TES driver enters [trace_fitting] with
    [dobounds] true and records nothing else: the bounds it asks for are
    never derived ([guessRange] on [guessTES] raises [NameError] for
    [guess]), the driver ends in an exception and makes no solver call.
    The FET driver enters with [dobounds] false and, once the window and
    the guess are found, makes exactly one solver call, on the windowed
    arrays, seeded with the guess, with the bounds (-inf, inf); no FET
    solver call carries other bounds. *)
Theorem TES_path_derives_no_bounds (ext : Externals) (g : gmap string pyobj)
    (file detname : string) (evno channel : Z) (doplot : bool) :
  reachable g →
  let tes := traceFit_TES ext g file detname evno channel doplot in
  let fet := traceFit_FET ext g file detname evno channel doplot in
  (∀ bins trace I0 E,
     getTES ext file evno channel = Ok (bins, trace, I0, E) → trace ≠ [] →
     calls tes = [EvTraceFitting (PyFunc "TESshape") true]) ∧
  fit_bounds g (Some (guessTES ext)) true = Raise (NameError "guess") ∧
  is_ok (outcome tes) = false ∧
  (∀ f x y p0 b, EvCurveFit f x y p0 b ∉ calls tes) ∧
  (∀ bins trace Q s e p,
     getFET ext file evno channel = Ok (bins, trace, Q) →
     fittingRange g trace 0.2 = Ok (s, e) →
     guessFET g bins trace = Ok p →
     calls fet
     = [EvTraceFitting (PyFunc "FETshape") false;
        EvCurveFit (PyFunc "FETshape") (slice bins s e) (slice trace s e)
                   (Some p) unconstrained]) ∧
  (∀ f x y p0 b, EvCurveFit f x y p0 b ∈ calls fet → b = unconstrained).
Proof.
  intros Hr tes fet.
  assert (Hshape : g !! "pulseShape" = None)
    by (apply reachable_unbound; [done | apply list_elem_of_here]).
  assert (Hguess : g !! "guess" = None).
  { apply reachable_unbound; [done|].
    apply list_elem_of_further, list_elem_of_here. }
  destruct (traceFit_TES_aborts ext g file detname evno channel doplot Hshape)
    as [Hout Hcalls].
  split; [|split; [|split; [done|split; [|split]]]].
  - intros bins trace I0 E Hget Hne. subst tes. unfold traceFit_TES.
    rewrite lift_bind, Hget, lift_bind.
    destruct trace as [|v r]; [done|]. cbn [py_max].
    rewrite calls_bind, trace_fitting_TES_calls by done.
    match goal with
    | |- context [match @outcome ?A ?t with _ => _ end] =>
        pose proof (proj1 (trace_fitting_TES_aborts ext g bins (v :: r)
                             (PyFunc "TESshape") true Hshape)
                    : is_ok (@outcome A t) = false) as Hno;
        destruct (@outcome A t); [discriminate|done]
    end.
  - unfold fit_bounds, guessRange, load_name. by rewrite Hguess.
  - intros f x y p0 b Hin. by specialize (Hcalls _ Hin).
  - intros bins trace Q s e p Hget Hw Hp. subst fet. unfold traceFit_FET.
    rewrite lift_bind, Hget, calls_bind, trace_fitting_run, Hw.
    unfold initial_guess, fit_bounds. rewrite Hp, bind_Ok_l.
    cbn [calls outcome].
    destruct (curve_fit ext (PyFunc "FETshape") (slice bins s e)
                (slice trace s e) (Some p) unconstrained ≫= unpack4)
      as [[[[a invTd] invTr] offset]|x]; [|done].
    rewrite lift_bind. by destruct (if doplot then _ else _).
  - intros f x y p0 b (bins & trace & H)%traceFit_FET_calls.
    apply trace_fitting_calls in H as [H|(? & ? & ? & ? & _ & _ & Hb & H)];
      [discriminate|]. injection H as _ _ _ _ ->. by injection Hb as <-.
Qed.

Lemma TES_path_derives_no_bounds_witness :
  calls (traceFit_TES echo_externals fet_globals "f" "" 0 0 false)
  = [EvTraceFitting (PyFunc "TESshape") true] ∧
  fit_bounds fet_globals (Some (guessTES echo_externals)) true
  = Raise (NameError "guess") ∧
  calls (traceFit_FET echo_externals fet_globals "f" "" 0 0 false)
  = [EvTraceFitting (PyFunc "FETshape") false;
     EvCurveFit (PyFunc "FETshape") (slice fet_bins 2 2002)
                (slice fet_pulse 2 2002) (Some (10, 1, 0, 0)%float)
                unconstrained].
Proof.
  destruct (TES_path_derives_no_bounds echo_externals fet_globals "f" "" 0 0
              false fet_globals_reachable) as (H1 & H2 & _ & _ & H5 & _).
  split; [|split; [exact H2|]].
  - apply (H1 (unit_bins 101) clean_peak 1%float 1%float);
      [reflexivity | discriminate].
  - apply (H5 fet_bins fet_pulse 1%float 2 2002 (10, 1, 0, 0)%float);
      reflexivity.
Defined.

(** X21: run from the command line, the program never completes a fit.
    The option string of [getargs] has no letter s, so the sensor stays
    "TES"; the TES path stops at an exception; hence every run of [main]
    ends in an exception, and the only call it can record is the entry into
    [trace_fitting] for the TES shape: the solver is never called. *)
Theorem main_never_returns (ext : Externals) (cl : CommandLine)
    (g : gmap string pyobj) (argv : list string) :
  reachable g → getopt_contract cl →
  is_ok (outcome (snd (main ext cl g argv))) = false ∧
  (∀ ev, ev ∈ calls (snd (main ext cl g argv)) →
         ev = EvTraceFitting (PyFunc "TESshape") true) ∧
  (∀ s, snd (getargs cl g argv) = Ok s → opt_sensor s = "TES").
Proof.
  intros Hr Hcontract.
  assert (Hsensor : ∀ s, snd (getargs cl g argv) = Ok s → opt_sensor s = "TES").
  { unfold getargs. intros s Hok.
    destruct (getopt cl (drop 1 argv) "c:d:e:hpv")
      as [[opts [|file rest]]|] eqn:Hget; [discriminate| |discriminate].
    apply getargs_loop_settings in Hok as (_ & _ & Hs & _).
    rewrite Hs, last_arg_absent; [done|].
    intros a Hin. pose proof (Hcontract _ _ _ _ _ Hget Hin) as Ho.
    repeat (apply elem_of_cons in Ho as [Ho|Ho]; [discriminate|]).
    by apply elem_of_nil in Ho. }
  pose proof (getargs_namespace cl g argv (reachable_true_unbound g Hr)) as Hns.
  assert (Hrun : ∀ s, snd (getargs cl g argv) = Ok s →
    is_ok (outcome (snd (main ext cl g argv))) = false ∧
    ∀ ev, ev ∈ calls (snd (main ext cl g argv)) →
          ev = EvTraceFitting (PyFunc "TESshape") true).
  { intros s Hs. pose proof (Hsensor s Hs) as Hsens. unfold main.
    destruct (getargs cl g argv) as [g' r]. simpl in Hns, Hs. subst g' r.
    rewrite Hsens. simpl. apply traceFit_TES_aborts.
    rewrite lookup_insert_ne by done.
    apply reachable_unbound; [done|].
    apply list_elem_of_here. }
  destruct (snd (getargs cl g argv)) as [s|e] eqn:E.
  - destruct (Hrun s eq_refl) as [H1 H2]. done.
  - split; [|split; [|done]].
    + unfold main. destruct (getargs cl g argv) as [g' r]. simpl in E.
      by subst r.
    + unfold main. destruct (getargs cl g argv) as [g' r]. simpl in E.
      subst r. simpl. by intros ev ?%elem_of_nil.
Qed.

Lemma tiny_cli_contract : getopt_contract tiny_cli.
Proof.
  intros args opts rest o a. simpl.
  destruct args as [|w ws]; [intros [= <- <-]; by intros ?%elem_of_nil|].
  destruct (decide (w = "-p")) as [->|Hne].
  - intros [= <- <-]. intros [= -> ->]%list_elem_of_singleton. set_solver.
  - assert (Hcase : match w with
                    | "-p" => Some ([("-p", "")], ws)
                    | _ => Some ([], w :: ws)
                    end = Some ([], w :: ws) :> option (list (string * string) * list string)).
    { destruct w as [|[[] [] [] [] [] [] [] []] w]; try done.
      destruct w as [|[[] [] [] [] [] [] [] []] w]; try done.
      destruct w; try done. }
    rewrite Hcase. intros [= <- <-]. by intros ?%elem_of_nil.
Qed.

Lemma main_never_returns_witness :
  is_ok (outcome (snd (main echo_externals tiny_cli (module_init "")
                         ["prog"; "-p"; "f.root"]))) = false ∧
  (∀ ev, ev ∈ calls (snd (main echo_externals tiny_cli (module_init "")
                            ["prog"; "-p"; "f.root"])) →
         ev = EvTraceFitting (PyFunc "TESshape") true) ∧
  (∀ s, snd (getargs tiny_cli (module_init "") ["prog"; "-p"; "f.root"]) = Ok s →
        opt_sensor s = "TES").
Proof.
  apply main_never_returns; [apply reach_init | exact tiny_cli_contract].
Defined.

(** X22: [traceFit] rebinds [sensorType] to the sensor it is given before
    it looks at it, and touches no other name.  With a sensor other than
    "TES" and "FET" it ends in [SystemExit(2)] without a call, yet the name
    stays rebound: from then on the window of a non-empty trace without NaN
    is the whole trace. *)
Theorem traceFit_rebinds_sensor (ext : Externals) (g : gmap string pyobj)
    (file detname sensor : string) (evno channel : Z) (doplot : bool) :
  let r := traceFit ext g file detname sensor evno channel doplot in
  fst r !! "sensorType" = Some (PyStr sensor) ∧
  (∀ name, name ≠ "sensorType" → fst r !! name = g !! name) ∧
  (sensor ≠ "TES" → sensor ≠ "FET" →
   snd r = lift (Raise (SystemExit 2)) ∧
   ∀ trace cut, trace ≠ [] → nan_free trace →
                fittingRange (fst r) trace cut = Ok (0, length trace)).
Proof.
  simpl. split; [by rewrite lookup_insert_eq|].
  split; [intros name Hne; by rewrite lookup_insert_ne|].
  intros Htes Hfet. split.
  - destruct (String.eqb_spec sensor "TES") as [->|_]; [done|].
    by destruct (String.eqb_spec sensor "FET") as [->|_].
  - intros trace cut Hne Hnf.
    apply (fittingRange_other_sensor _ (PyStr sensor));
      [by rewrite lookup_insert_eq | congruence | congruence | done | done].
Qed.


(** ** The two shapes over the reals, further *)

Section Shapes.
Local Open Scope R_scope.

Lemma exp_le_mono (x y : R) : x <= y -> exp x <= exp y.
Proof.
  intros [H|H]; [left; by apply exp_increasing | subst; lra].
Qed.

(** X14: the TES shape cannot tell its two time constants apart: with
    equal rise and fall times it is zero everywhere, and exchanging them
    only flips its sign. *)
Theorem TESshape_degenerate (x a t_r t_f offset : R) :
  TESshape x a t_r t_r offset = 0 /\
  TESshape x a t_f t_r offset = - TESshape x a t_r t_f offset.
Proof. unfold TESshape. simpl. split; ring. Qed.

(** X15: for 0 < t_r <= t_f and a >= 0 the TES shape starts at zero at
    the offset and from there on stays between the baseline and a. *)
Theorem TESshape_above_baseline (a t_r t_f offset : R) :
  0 < t_r -> t_r <= t_f -> 0 <= a ->
  TESshape offset a t_r t_f offset = 0 /\
  forall x, offset <= x -> 0 <= TESshape x a t_r t_f offset <= a.
Proof.
  intros Hr Hf Ha. split.
  - unfold TESshape. simpl.
    replace (- (offset - offset) / t_f) with 0 by (field; lra).
    replace (- (offset - offset) / t_r) with 0 by (field; lra).
    ring.
  - intros x Hx. unfold TESshape. simpl.
    set (s := x - offset). assert (Hs : 0 <= s) by (unfold s; lra).
    clearbody s.
    assert (H1 : exp (- s / t_r) <= exp (- s / t_f)).
    { apply exp_le_mono. unfold Rdiv.
      assert (/ t_f <= / t_r) by (apply Rinv_le_contravar; lra).
      nra. }
    assert (H2 : exp (- s / t_f) <= 1).
    { rewrite <- exp_0. apply exp_le_mono. unfold Rdiv.
      assert (0 < / t_f) by (apply Rinv_0_lt_compat; lra). nra. }
    pose proof (exp_pos (- s / t_r)) as H3. split.
    + apply Rmult_le_pos; lra.
    + rewrite <- (Rmult_1_r a) at 2. apply Rmult_le_compat_l; lra.
Qed.

Lemma TESshape_above_baseline_witness :
  TESshape 5 5 2 20 5 = 0 /\
  forall x, 5 <= x -> 0 <= TESshape x 5 2 20 5 <= 5.
Proof. apply (TESshape_above_baseline 5 2 20 5); lra. Defined.

(** X16: with equal decay and recovery rates the FET shape is zero
    everywhere; with recovery rate 0, the value [guessFET] falls back to,
    it is the single decaying exponential a*invTd*exp(-(x-offset)*invTd),
    positive for positive a and invTd: no undershoot. *)
Theorem FETshape_no_recovery (x a invTd offset : R) :
  FETshape x a invTd invTd offset = 0 /\
  FETshape x a invTd 0 offset = a * invTd * exp (- (x - offset) * invTd) /\
  (0 < a -> 0 < invTd -> 0 < FETshape x a invTd 0 offset).
Proof.
  assert (Heq : FETshape x a invTd 0 offset
                = a * invTd * exp (- (x - offset) * invTd)).
  { unfold FETshape. simpl. ring. }
  split; [unfold FETshape; simpl; ring|]. split; [done|].
  intros Ha Hd. rewrite Heq. pose proof (exp_pos (- (x - offset) * invTd)).
  apply Rmult_lt_0_compat; [by apply Rmult_lt_0_compat | done].
Qed.

(** X17: for a > 0 and invTd > invTr > 0 the FET shape crosses zero once
    after the offset, at offset + ln(invTd/invTr)/(invTd - invTr): it is
    positive before that time and negative after it (the undershoot). *)
Theorem FETshape_undershoot (a invTd invTr offset : R) :
  0 < a -> invTr < invTd -> 0 < invTr ->
  let s0 := ln (invTd / invTr) / (invTd - invTr) in
  0 < s0 /\
  FETshape (offset + s0) a invTd invTr offset = 0 /\
  (forall x, x - offset < s0 -> 0 < FETshape x a invTd invTr offset) /\
  (forall x, s0 < x - offset -> FETshape x a invTd invTr offset < 0).
Proof.
  intros Ha Hd Hr s0.
  assert (Hq : 1 < invTd / invTr).
  { apply (Rmult_lt_reg_r invTr); [done|]. unfold Rdiv.
    rewrite Rmult_assoc, Rinv_l by lra. lra. }
  assert (HL : 0 < ln (invTd / invTr)).
  { rewrite <- ln_1. apply ln_increasing; lra. }
  assert (Hs0 : s0 * (invTd - invTr) = ln (invTd / invTr)).
  { unfold s0. field. lra. }
  assert (Hsplit : forall s,
    exp (- s * invTd) * invTd - exp (- s * invTr) * invTr
    = exp (- s * invTd) * invTr * (invTd / invTr - exp (s * (invTd - invTr)))).
  { intros s.
    replace (- s * invTr) with (- s * invTd + s * (invTd - invTr)) by ring.
    rewrite exp_plus. field. lra. }
  assert (Hexp0 : exp (ln (invTd / invTr)) = invTd / invTr)
    by (apply exp_ln; lra).
  split.
  { unfold s0. apply Rdiv_lt_0_compat; lra. }
  split; [|split].
  - unfold FETshape. simpl.
    replace (offset + s0 - offset) with s0 by ring.
    rewrite Hsplit, Hs0, Hexp0. ring.
  - intros x Hx. unfold FETshape. simpl. rewrite Hsplit.
    set (s := x - offset) in *. clearbody s.
    assert (exp (s * (invTd - invTr)) < invTd / invTr).
    { rewrite <- Hexp0. apply exp_increasing. rewrite <- Hs0. nra. }
    pose proof (exp_pos (- s * invTd)).
    apply Rmult_lt_0_compat; [done|].
    apply Rmult_lt_0_compat; [by apply Rmult_lt_0_compat | lra].
  - intros x Hx. unfold FETshape. simpl. rewrite Hsplit.
    set (s := x - offset) in *. clearbody s.
    assert (invTd / invTr < exp (s * (invTd - invTr))).
    { rewrite <- Hexp0. apply exp_increasing. rewrite <- Hs0. nra. }
    pose proof (exp_pos (- s * invTd)).
    assert (Hpos : 0 < a * (exp (- s * invTd) * invTr)
                       * (exp (s * (invTd - invTr)) - invTd / invTr)).
    { apply Rmult_lt_0_compat; [|lra].
      apply Rmult_lt_0_compat; [done|]. by apply Rmult_lt_0_compat. }
    replace (a * (exp (- s * invTd) * invTr
                  * (invTd / invTr - exp (s * (invTd - invTr)))))
      with (- (a * (exp (- s * invTd) * invTr)
               * (exp (s * (invTd - invTr)) - invTd / invTr))) by ring.
    lra.
Qed.

Lemma FETshape_undershoot_witness :
  let s0 := ln (2 / 1) / (2 - 1) in
  0 < s0 /\
  FETshape (0 + s0) 1 2 1 0 = 0 /\
  (forall x, x - 0 < s0 -> 0 < FETshape x 1 2 1 0) /\
  (forall x, s0 < x - 0 -> FETshape x 1 2 1 0 < 0).
Proof. apply (FETshape_undershoot 1 2 1 0); lra. Defined.

End Shapes.
